(** * The apt proxy repository resource of the Nexus Terraform provider

    A shallow embedding of [nexus/resource_repository_apt_proxy.go]: the
    schema of the resource, the marshalling function
    [getRepositoryAptProxyFromResourceData] and the five CRUD handlers,
    followed by the properties established about them.

    Go's dynamically typed [interface{}] values are an inductive type,
    a failed type assertion or index is a [Panic], the Terraform
    [*schema.ResourceData] is a record read through [Get] and [GetOk],
    and the external [nexus.Client] is an interface (a type class) whose
    calls are recorded in a trace. *)

From Stdlib Require Import ZArith String List.
From stdpp Require Import base option list gmap strings fin_maps.

Local Open Scope string_scope.
Local Open Scope Z_scope.
Local Open Scope list_scope.

#[local] Set Warnings "-register-all".

(** ** Dynamic values and panics *)

(** The dynamic values that travel through [interface{}] in this file.
    [VNil] is the nil interface, [VIntPtr] a [*int], [VList] a
    [[]interface{}], [VSet] a [*schema.Set] (kept as the slice its
    [List()] returns) and [VMap] a [map[string]interface{}]. *)
Inductive value : Type :=
| VNil
| VString (s : string)
| VBool (b : bool)
| VInt (n : Z)
| VIntPtr (p : option Z)
| VList (l : list value)
| VSet (l : list value)
| VMap (m : gmap string value).

(** The result of running Go code that may panic. *)
Inductive Result (A : Type) : Type :=
| Ok (a : A)
| Panic.
Arguments Ok {A} a.
Arguments Panic {A}.

#[global] Instance Result_ret : MRet Result := fun _ a => Ok a.
#[global] Instance Result_bind : MBind Result := fun _ _ f r =>
  match r with
  | Ok a => f a
  | Panic => Panic
  end.

(** [v.(string)], [v.(bool)], [v.(int)], [v.( *int)], [v.([]interface{})],
    [v.( *schema.Set).List()] and [v.(map[string]interface{})]: the
    one-result form of the type assertion, which panics when the dynamic
    type of [v] is another one (nil included). *)
Definition assertString (v : value) : Result string :=
  match v with VString s => Ok s | _ => Panic end.
Definition assertBool (v : value) : Result bool :=
  match v with VBool b => Ok b | _ => Panic end.
Definition assertInt (v : value) : Result Z :=
  match v with VInt n => Ok n | _ => Panic end.
Definition assertIntPtr (v : value) : Result (option Z) :=
  match v with VIntPtr p => Ok p | _ => Panic end.
Definition assertList (v : value) : Result (list value) :=
  match v with VList l => Ok l | _ => Panic end.
Definition assertSetList (v : value) : Result (list value) :=
  match v with VSet l => Ok l | _ => Panic end.
Definition assertMap (v : value) : Result (gmap string value) :=
  match v with VMap m => Ok m | _ => Panic end.

(** [l[0]]: indexing an empty slice panics. *)
Definition index0 (l : list value) : Result value :=
  match l with
  | v :: _ => Ok v
  | [] => Panic
  end.

(** [m[k]] on a [map[string]interface{}]: a missing key reads as nil. *)
Definition mapIndex (m : gmap string value) (k : string) : value :=
  default VNil (m !! k).

(** [v != nil]. *)
Definition notNil (v : value) : bool :=
  match v with VNil => false | _ => true end.

(** ** The schema *)

(** The [Type] (and [Elem]) of a [schema.Schema]. Every [TypeList] of
    this resource has a [*schema.Resource] as [Elem], whose own schema
    map is the argument; the only [TypeSet] is a set of strings. The
    other attributes of a schema entry (description, default, required or
    optional, item bound, validation) decide which configurations
    Terraform accepts, not what [Get] and [GetOk] return for one. *)
Inductive ValueType : Type :=
| TypeBool
| TypeInt
| TypeString
| TypeList (elem : list (string * ValueType))
| TypeSet.

Abbreviation SchemaMap := (list (string * ValueType)).

Fixpoint schemaLookup (s : SchemaMap) (key : string) : option ValueType :=
  match s with
  | [] => None
  | (k, t) :: s' => if String.eqb k key then Some t else schemaLookup s' key
  end.

Module SchemaV1.
(** The [Schema] of [resourceRepositoryAptProxy], first variant. *)
Definition storage : SchemaMap :=
  [("blob_store_name", TypeString);
   ("strict_content_type_validation", TypeBool)].
Definition cleanup : SchemaMap := [("policy_names", TypeSet)].
Definition connection : SchemaMap :=
  [("retries", TypeInt);
   ("user_agent_suffix", TypeString);
   ("timeout", TypeInt);
   ("enable_circular_redirects", TypeBool);
   ("enable_cookies", TypeBool);
   ("use_trust_store", TypeBool)].
Definition authentication : SchemaMap :=
  [("type", TypeString);
   ("username", TypeString);
   ("password", TypeString);
   ("ntlm_host", TypeString);
   ("ntlm_domain", TypeString)].
Definition http_client : SchemaMap :=
  [("blocked", TypeBool);
   ("auto_block", TypeBool);
   ("connection", TypeList connection);
   ("authentication", TypeList authentication)].
Definition negative_cache : SchemaMap :=
  [("enabled", TypeBool); ("ttl", TypeInt)].
Definition proxy : SchemaMap :=
  [("content_max_age", TypeInt);
   ("metadata_max_age", TypeInt);
   ("remote_url", TypeString)].
Definition apt : SchemaMap :=
  [("distribution", TypeString); ("flat", TypeBool)].

Definition Schema : SchemaMap :=
  [("name", TypeString);
   ("online", TypeBool);
   ("storage", TypeList storage);
   ("cleanup", TypeList cleanup);
   ("http_client", TypeList http_client);
   ("negative_cache", TypeList negative_cache);
   ("proxy", TypeList proxy);
   ("routing_rule", TypeString);
   ("apt", TypeList apt)].
End SchemaV1.

Module SchemaV2.
(** The [Schema] of the second variant: the same blocks (their entries
    differ from the first variant in defaults and in being optional,
    not in type) and the two extra strings [format] and [type]. *)
Definition Schema : SchemaMap :=
  [("format", TypeString);
   ("type", TypeString);
   ("name", TypeString);
   ("online", TypeBool);
   ("storage", TypeList SchemaV1.storage);
   ("cleanup", TypeList SchemaV1.cleanup);
   ("http_client", TypeList SchemaV1.http_client);
   ("negative_cache", TypeList SchemaV1.negative_cache);
   ("proxy", TypeList SchemaV1.proxy);
   ("routing_rule", TypeString);
   ("apt", TypeList SchemaV1.apt)].
End SchemaV2.

(** ** Resource data *)

(** [*schema.ResourceData]: the schema it was built for, the resource id
    and the values that exist for the top-level keys. *)
Record ResourceData : Type := mkResourceData {
  rd_schema : SchemaMap;
  rd_id : string;
  rd_fields : gmap string value;
}.

(** [schema.Type.Zero()]. *)
Definition zeroValue (t : ValueType) : value :=
  match t with
  | TypeBool => VBool false
  | TypeInt => VInt 0
  | TypeString => VString EmptyString
  | TypeList _ => VList []
  | TypeSet => VSet []
  end.

(** Whether a value equals the zero value of a schema type. *)
Definition isZero (t : ValueType) (v : value) : bool :=
  match t, v with
  | TypeBool, VBool b => negb b
  | TypeInt, VInt n => Z.eqb n 0
  | TypeString, VString s => String.eqb s EmptyString
  | TypeList _, VList l => match l with [] => true | _ => false end
  | TypeSet, VSet l => match l with [] => true | _ => false end
  | _, _ => false
  end.

(** [d.Get(key)]: the value of the key, the zero value of its type when
    none exists, nil for a key the schema does not have. *)
Definition Get (d : ResourceData) (key : string) : value :=
  match schemaLookup (rd_schema d) key with
  | None => VNil
  | Some t => default (zeroValue t) (rd_fields d !! key)
  end.

(** [d.GetOk(key)]: the value as [Get] returns it, and whether it exists
    and is not the zero value of its type. *)
Definition GetOk (d : ResourceData) (key : string) : value * bool :=
  match schemaLookup (rd_schema d) key with
  | None => (VNil, false)
  | Some t =>
      match rd_fields d !! key with
      | Some v => (v, negb (isZero t v))
      | None => (zeroValue t, false)
      end
  end.

(** [d.Id()] and [d.SetId(id)]. *)
Definition Id (d : ResourceData) : string := rd_id d.
Definition SetId (id : string) (d : ResourceData) : ResourceData :=
  mkResourceData (rd_schema d) id (rd_fields d).

(** What the reader of Terraform's SDK hands out for a schema type: a
    [bool], an [int], a [string], a set of strings, and for a list of
    blocks a slice whose elements are nil (an empty block) or maps that
    hold, for the keys of the block's schema, values of their types. *)
Fixpoint hasType (t : ValueType) (v : value) : bool :=
  match t, v with
  | TypeBool, VBool _ => true
  | TypeInt, VInt _ => true
  | TypeString, VString _ => true
  | TypeSet, VSet l =>
      forallb (fun e => match e with VString _ => true | _ => false end) l
  | TypeList elem, VList l =>
      forallb (fun e =>
        match e with
        | VNil => true
        | VMap m =>
            (fix fieldsOk (fs : list (string * ValueType)) : bool :=
               match fs with
               | [] => true
               | (k, t') :: fs' =>
                   match m !! k with
                   | Some v' => hasType t' v'
                   | None => true
                   end && fieldsOk fs'
               end) elem
        | _ => false
        end) l
  | _, _ => false
  end.

(** Every value that exists in [d] has the type its schema gives it. *)
Definition conforms (d : ResourceData) : bool :=
  forallb (fun kt =>
    match rd_fields d !! kt.1 with
    | Some v => hasType kt.2 v
    | None => true
    end) (rd_schema d).

(** The values a block holds have the types of the block's schema. *)
Definition blockHasType (elem : SchemaMap) (m : gmap string value) : bool :=
  forallb (fun kt =>
    match m !! kt.1 with
    | Some v => hasType kt.2 v
    | None => true
    end) elem.

(** A resource data with one more (or another) value for a key. *)
Definition withField (key : string) (v : value) (d : ResourceData)
  : ResourceData :=
  mkResourceData (rd_schema d) (rd_id d) (<[key := v]> (rd_fields d)).

(** The values of blocks that are filled in: as [hasType], but no
    element of a list of blocks is nil and the map of a block holds a
    value for every key of the block's schema (the reader of the SDK
    fills in the zero value of a key that is not configured). *)
Fixpoint isComplete (t : ValueType) (v : value) : bool :=
  match t, v with
  | TypeBool, VBool _ => true
  | TypeInt, VInt _ => true
  | TypeString, VString _ => true
  | TypeSet, VSet l =>
      forallb (fun e => match e with VString _ => true | _ => false end) l
  | TypeList elem, VList l =>
      forallb (fun e =>
        match e with
        | VMap m =>
            (fix fieldsOk (fs : list (string * ValueType)) : bool :=
               match fs with
               | [] => true
               | (k, t') :: fs' =>
                   match m !! k with
                   | Some v' => isComplete t' v'
                   | None => false
                   end && fieldsOk fs'
               end) elem
        | _ => false
        end) l
  | _, _ => false
  end.

(** A block that holds a complete value for every key of its schema. *)
Definition blockIsComplete (elem : SchemaMap) (m : gmap string value)
  : bool :=
  forallb (fun kt =>
    match m !! kt.1 with
    | Some v => isComplete kt.2 v
    | None => false
    end) elem.

(** Every value that exists in [d] is complete for the type its schema
    gives it. *)
Definition complete (d : ResourceData) : bool :=
  forallb (fun kt =>
    match rd_fields d !! kt.1 with
    | Some v => isComplete kt.2 v
    | None => true
    end) (rd_schema d).

(** The elements of a set are strings. *)
Definition allStrings (l : list value) : bool :=
  forallb (fun e => match e with VString _ => true | _ => false end) l.

(** ** The request structures of the client library *)

(** [nexus.Repository] and the structures it embeds by pointer, with the
    fields this resource fills in. A nil pointer is [None]. The embedded
    field [*nexus.RepositoryApt] of [Repository] is the projection [Apt],
    and so on for the others; Go's field [Type] is [Type_] (and
    [AuthType] in the authentication block). *)
Module nexus.
Record RepositoryApt : Type := mkRepositoryApt {
  Distribution : string;
  Flat : bool;
}.

Record RepositoryCleanup : Type := mkRepositoryCleanup {
  PolicyNames : list string;
}.

Record RepositoryGroup : Type := mkRepositoryGroup {
  MemberNames : list string;
}.

Record RepositoryHTTPClientAuthentication : Type :=
  mkRepositoryHTTPClientAuthentication {
  NTLMDomain : string;
  NTLMHost : string;
  AuthType : string;
  Username : string;
  Password : string;
}.

Record RepositoryHTTPClientConnection : Type :=
  mkRepositoryHTTPClientConnection {
  Retries : option Z;
  Timeout : option Z;
}.

Record RepositoryHTTPClient : Type := mkRepositoryHTTPClient {
  AutoBlock : bool;
  Blocked : bool;
  Authentication : option RepositoryHTTPClientAuthentication;
  Connection : option RepositoryHTTPClientConnection;
}.

Record RepositoryNegativeCache : Type := mkRepositoryNegativeCache {
  Enabled : bool;
  TTL : Z;
}.

Record RepositoryProxy : Type := mkRepositoryProxy {
  ContentMaxAge : Z;
  MetadataMaxAge : Z;
  RemoteURL : string;
}.

Record RepositoryStorage : Type := mkRepositoryStorage {
  BlobStoreName : string;
  StrictContentTypeValidation : bool;
  WritePolicy : option string;
}.

Record Repository : Type := mkRepository {
  Format : string;
  Name : string;
  Online : bool;
  Type_ : string;
  Apt : option RepositoryApt;
  Cleanup : option RepositoryCleanup;
  Group : option RepositoryGroup;
  HTTPClient : option RepositoryHTTPClient;
  NegativeCache : option RepositoryNegativeCache;
  Proxy : option RepositoryProxy;
  Storage : option RepositoryStorage;
}.

(** The library's constant for the type of a hosted repository. *)
Definition RepositoryTypeHosted : string := "hosted".
End nexus.
Import nexus.

(** Assignments to one field of a [Repository]. *)
Definition setApt (x : option RepositoryApt) (r : Repository) : Repository :=
  mkRepository (Format r) (Name r) (Online r) (Type_ r) x (Cleanup r)
    (Group r) (HTTPClient r) (NegativeCache r) (Proxy r) (Storage r).
Definition setCleanup (x : option RepositoryCleanup) (r : Repository)
  : Repository :=
  mkRepository (Format r) (Name r) (Online r) (Type_ r) (Apt r) x
    (Group r) (HTTPClient r) (NegativeCache r) (Proxy r) (Storage r).
Definition setGroup (x : option RepositoryGroup) (r : Repository)
  : Repository :=
  mkRepository (Format r) (Name r) (Online r) (Type_ r) (Apt r) (Cleanup r)
    x (HTTPClient r) (NegativeCache r) (Proxy r) (Storage r).
Definition setHTTPClient (x : option RepositoryHTTPClient) (r : Repository)
  : Repository :=
  mkRepository (Format r) (Name r) (Online r) (Type_ r) (Apt r) (Cleanup r)
    (Group r) x (NegativeCache r) (Proxy r) (Storage r).
Definition setNegativeCache (x : option RepositoryNegativeCache)
  (r : Repository) : Repository :=
  mkRepository (Format r) (Name r) (Online r) (Type_ r) (Apt r) (Cleanup r)
    (Group r) (HTTPClient r) x (Proxy r) (Storage r).
Definition setProxy (x : option RepositoryProxy) (r : Repository)
  : Repository :=
  mkRepository (Format r) (Name r) (Online r) (Type_ r) (Apt r) (Cleanup r)
    (Group r) (HTTPClient r) (NegativeCache r) x (Storage r).
Definition setStorage (x : option RepositoryStorage) (r : Repository)
  : Repository :=
  mkRepository (Format r) (Name r) (Online r) (Type_ r) (Apt r) (Cleanup r)
    (Group r) (HTTPClient r) (NegativeCache r) (Proxy r) x.

(** ** Marshalling the resource data into a request *)

Section Marshal.
(** [interfaceSliceToStringSlice] is a helper of the provider that is
    defined in another file; the marshalling function is stated over
    any implementation of it. *)
Variable interfaceSliceToStringSlice : list value -> Result (list string).

(** The [apt] block. *)
Definition readApt (d : ResourceData) (repo : Repository)
  : Result Repository :=
  if (GetOk d "apt").2 then
    aptList ← assertList (Get d "apt");
    e ← index0 aptList;
    aptConfig ← assertMap e;
    distribution ← assertString (mapIndex aptConfig "distribution");
    flat ← assertBool (mapIndex aptConfig "flat");
    mret (setApt (Some (mkRepositoryApt distribution flat)) repo)
  else mret repo.

(** The [cleanup] block. *)
Definition readCleanup (d : ResourceData) (repo : Repository)
  : Result Repository :=
  if (GetOk d "cleanup").2 then
    cleanupList ← assertList (Get d "cleanup");
    e ← index0 cleanupList;
    cleanupConfig ← assertMap e;
    l ← assertSetList (mapIndex cleanupConfig "policy_names");
    policyNames ← interfaceSliceToStringSlice l;
    mret (setCleanup (Some (mkRepositoryCleanup policyNames)) repo)
  else mret repo.

(** [for _, v := range l { names = append(names, v.(string)) }]. *)
Fixpoint appendStrings (names : list string) (l : list value)
  : Result (list string) :=
  match l with
  | [] => mret names
  | v :: l' => s ← assertString v; appendStrings (names ++ [s]) l'
  end.

(** The [group] block. *)
Definition readGroup (d : ResourceData) (repo : Repository)
  : Result Repository :=
  if (GetOk d "group").2 then
    groupList ← assertList (Get d "group");
    groupMemberNames ←
      match groupList with
      | [e] =>
          if notNil e then
            groupConfig ← assertMap e;
            members ← assertSetList (mapIndex groupConfig "member_names");
            appendStrings [] members
          else mret []
      | _ => mret []
      end;
    mret (setGroup (Some (mkRepositoryGroup groupMemberNames)) repo)
  else mret repo.

(** The [authentication] sub-block of [http_client]. *)
Definition readAuthentication (httpClientConfig : gmap string value)
  : Result (option RepositoryHTTPClientAuthentication) :=
  match httpClientConfig !! "authentication" with
  | Some v =>
      authList ← assertList v;
      match authList with
      | [e] =>
          if notNil e then
            authConfig ← assertMap e;
            ntlmDomain ← assertString (mapIndex authConfig "ntlm_domain");
            ntlmHost ← assertString (mapIndex authConfig "ntlm_host");
            type ← assertString (mapIndex authConfig "type");
            username ← assertString (mapIndex authConfig "username");
            password ← assertString (mapIndex authConfig "password");
            mret (Some (mkRepositoryHTTPClientAuthentication
                          ntlmDomain ntlmHost type username password))
          else mret None
      | _ => mret None
      end
  | None => mret None
  end.

(** The [connection] sub-block of [http_client]. *)
Definition readConnection (httpClientConfig : gmap string value)
  : Result (option RepositoryHTTPClientConnection) :=
  match httpClientConfig !! "connection" with
  | Some v =>
      connList ← assertList v;
      match connList with
      | [e] =>
          if notNil e then
            connConfig ← assertMap e;
            retries ← assertIntPtr (mapIndex connConfig "retries");
            timeout ← assertIntPtr (mapIndex connConfig "timeout");
            mret (Some (mkRepositoryHTTPClientConnection retries timeout))
          else mret None
      | _ => mret None
      end
  | None => mret None
  end.

(** The [http_client] block. *)
Definition readHTTPClient (d : ResourceData) (repo : Repository)
  : Result Repository :=
  if (GetOk d "http_client").2 then
    httpClientList ← assertList (Get d "http_client");
    e ← index0 httpClientList;
    httpClientConfig ← assertMap e;
    autoBlock ← assertBool (mapIndex httpClientConfig "auto_block");
    blocked ← assertBool (mapIndex httpClientConfig "blocked");
    authentication ← readAuthentication httpClientConfig;
    connection ← readConnection httpClientConfig;
    mret (setHTTPClient
            (Some (mkRepositoryHTTPClient autoBlock blocked
                     authentication connection)) repo)
  else mret repo.

(** The [negative_cache] block. *)
Definition readNegativeCache (d : ResourceData) (repo : Repository)
  : Result Repository :=
  if (GetOk d "negative_cache").2 then
    negativeCacheList ← assertList (Get d "negative_cache");
    e ← index0 negativeCacheList;
    negativeCacheConfig ← assertMap e;
    enabled ← assertBool (mapIndex negativeCacheConfig "enabled");
    ttl ← assertInt (mapIndex negativeCacheConfig "ttl");
    mret (setNegativeCache
            (Some (mkRepositoryNegativeCache enabled ttl)) repo)
  else mret repo.

(** The [proxy] block. *)
Definition readProxy (d : ResourceData) (repo : Repository)
  : Result Repository :=
  if (GetOk d "proxy").2 then
    proxyList ← assertList (Get d "proxy");
    e ← index0 proxyList;
    proxyConfig ← assertMap e;
    contentMaxAge ← assertInt (mapIndex proxyConfig "content_max_age");
    metadataMaxAge ← assertInt (mapIndex proxyConfig "metadata_max_age");
    remoteURL ← assertString (mapIndex proxyConfig "remote_url");
    mret (setProxy
            (Some (mkRepositoryProxy contentMaxAge metadataMaxAge remoteURL))
            repo)
  else mret repo.

(** The [storage] block; only a hosted repository has a write policy. *)
Definition readStorage (d : ResourceData) (repo : Repository)
  : Result Repository :=
  if (GetOk d "storage").2 then
    storageList ← assertList (Get d "storage");
    e ← index0 storageList;
    storageConfig ← assertMap e;
    blobStoreName ← assertString (mapIndex storageConfig "blob_store_name");
    strict ← assertBool
               (mapIndex storageConfig "strict_content_type_validation");
    writePolicy ←
      (if String.eqb (Type_ repo) RepositoryTypeHosted then
         w ← assertString (mapIndex storageConfig "write_policy");
         mret (Some w)
       else mret None);
    mret (setStorage
            (Some (mkRepositoryStorage blobStoreName strict writePolicy))
            repo)
  else mret repo.

(** [getRepositoryAptProxyFromResourceData]: the literal with the fixed
    format and type, then the blocks in the order of the source. *)
Definition getRepositoryAptProxyFromResourceData (d : ResourceData)
  : Result Repository :=
  name ← assertString (Get d "name");
  online ← assertBool (Get d "online");
  repo ← readApt d (mkRepository "apt" name online "proxy"
                      None None None None None None None);
  repo ← readCleanup d repo;
  repo ← readGroup d repo;
  repo ← readHTTPClient d repo;
  repo ← readNegativeCache d repo;
  repo ← readProxy d repo;
  readStorage d repo.
End Marshal.

(** The keys through which the marshalling function reads the resource
    data. *)
Definition readKeys : list string :=
  ["name"; "online"; "apt"; "cleanup"; "group"; "http_client";
   "negative_cache"; "proxy"; "storage"].

(** The blocks that the function indexes and asserts to be a map without
    testing the element for nil. *)
Definition unguardedBlocks : list string :=
  ["apt"; "cleanup"; "http_client"; "negative_cache"; "proxy"; "storage"].

(** ** The client library *)

(** Go's [error] values, by their message; nil is [None]. *)
Definition error : Type := string.

(** The methods of [nexus.Client] that the handlers call. A client value
    stands for the remote server it talks to: a call returns what the Go
    method returns together with the client after the call. *)
Class Client (C : Type) : Type := {
  RepositoryCreate : C -> Repository -> C * option error;
  RepositoryRead : C -> string -> C * (option Repository * option error);
  RepositoryUpdate : C -> string -> Repository -> C * option error;
  RepositoryDelete : C -> string -> C * option error;
}.

(** What a handler does to the outside: the requests it issues to the
    client, and its calls of [setRepositoryToResourceData]. *)
Inductive Event : Type :=
| EvRepositoryCreate (repo : Repository)
| EvRepositoryRead (id : string)
| EvRepositoryUpdate (id : string) (repo : Repository)
| EvRepositoryDelete (id : string)
| EvSetRepositoryToResourceData (repo : Repository).

Definition isRequest (e : Event) : bool :=
  match e with
  | EvSetRepositoryToResourceData _ => false
  | _ => true
  end.

(** The requests of a trace, in order. *)
Definition requests (t : list Event) : list Event := List.filter isRequest t.

(** ** The CRUD handlers *)

(** A handler runs on the resource data [d] it is given by pointer, the
    client [m] (the provider hands every handler a [nexus.Client], so the
    assertion [m.(nexus.Client)] is not modelled) and the trace so far. *)
Record State (C : Type) : Type := mkState {
  st_d : ResourceData;
  st_client : C;
  st_trace : list Event;
}.
Arguments mkState {C} _ _ _.
Arguments st_d {C} _.
Arguments st_client {C} _.
Arguments st_trace {C} _.

(** A handler returns a value or panics, in a final state. *)
Inductive Outcome (C A : Type) : Type :=
| Returned (a : A) (s : State C)
| Panicked (s : State C).
Arguments Returned {C A} a s.
Arguments Panicked {C A} s.

Definition Handler (C A : Type) : Type := State C -> Outcome C A.

Definition hret {C A} (a : A) : Handler C A := fun s => Returned a s.
Definition hbind {C A B} (m : Handler C A) (f : A -> Handler C B)
  : Handler C B :=
  fun s =>
    match m s with
    | Returned a s' => f a s'
    | Panicked s' => Panicked s'
    end.

Notation "x <- m ;; k" := (hbind m (fun x => k))
  (at level 100, m at next level, right associativity, only parsing).

(** The returned value, the final state and the trace of an outcome. *)
Definition returned {C A} (o : Outcome C A) : option A :=
  match o with Returned a _ => Some a | Panicked _ => None end.
Definition final {C A} (o : Outcome C A) : State C :=
  match o with Returned _ s => s | Panicked s => s end.

(** The state after an event [e] that left the client as [c]. *)
Definition after {C} (e : Event) (c : C) (s : State C) : State C :=
  mkState (st_d s) c (st_trace s ++ [e]).

Section Handlers.
Context {C : Type} `{!Client C}.

(** Three functions of the provider that are defined in other files:
    the helper of the marshalling function, the function that writes a
    repository into the resource data (it is given the repository and
    the resource data, not the client), and the read handler of the
    generic repository resource. *)
Variable interfaceSliceToStringSlice : list value -> Result (list string).
Variable setRepositoryToResourceData :
  Repository -> ResourceData -> Result (ResourceData * option error).
Variable resourceRepositoryRead : Handler C (option error).

Definition getD : Handler C ResourceData := fun s => Returned (st_d s) s.

Definition liftResult {A} (r : Result A) : Handler C A :=
  fun s => match r with Ok a => Returned a s | Panic => Panicked s end.

Definition log (e : Event) (s : State C) : list Event := st_trace s ++ [e].

Definition callRepositoryCreate (repo : Repository)
  : Handler C (option error) :=
  fun s =>
    let '(c, err) := RepositoryCreate (st_client s) repo in
    Returned err (mkState (st_d s) c (log (EvRepositoryCreate repo) s)).

Definition callRepositoryRead (id : string)
  : Handler C (option Repository * option error) :=
  fun s =>
    let '(c, res) := RepositoryRead (st_client s) id in
    Returned res (mkState (st_d s) c (log (EvRepositoryRead id) s)).

Definition callRepositoryUpdate (id : string) (repo : Repository)
  : Handler C (option error) :=
  fun s =>
    let '(c, err) := RepositoryUpdate (st_client s) id repo in
    Returned err (mkState (st_d s) c (log (EvRepositoryUpdate id repo) s)).

Definition callRepositoryDelete (id : string) : Handler C (option error) :=
  fun s =>
    let '(c, err) := RepositoryDelete (st_client s) id in
    Returned err (mkState (st_d s) c (log (EvRepositoryDelete id) s)).

Definition callSetRepositoryToResourceData (repo : Repository)
  : Handler C (option error) :=
  fun s =>
    let t := log (EvSetRepositoryToResourceData repo) s in
    match setRepositoryToResourceData repo (st_d s) with
    | Ok (d, err) => Returned err (mkState d (st_client s) t)
    | Panic => Panicked (mkState (st_d s) (st_client s) t)
    end.

Definition callSetId (id : string) : Handler C unit :=
  fun s =>
    Returned tt (mkState (SetId id (st_d s)) (st_client s) (st_trace s)).

Definition resourceRepositoryAptProxyRead : Handler C (option error) :=
  d <- getD ;;
  res <- callRepositoryRead (Id d) ;;
  match res.2 with
  | Some e => hret (Some e)
  | None =>
      match res.1 with
      | None => _ <- callSetId EmptyString ;; hret None
      | Some repo => callSetRepositoryToResourceData repo
      end
  end.

Definition resourceRepositoryAptProxyCreate : Handler C (option error) :=
  d <- getD ;;
  repo <- liftResult
            (getRepositoryAptProxyFromResourceData
               interfaceSliceToStringSlice d) ;;
  err <- callRepositoryCreate repo ;;
  match err with
  | Some e => hret (Some e)
  | None =>
      err <- callSetRepositoryToResourceData repo ;;
      match err with
      | Some e => hret (Some e)
      | None => resourceRepositoryAptProxyRead
      end
  end.

Definition resourceRepositoryAptProxyUpdate : Handler C (option error) :=
  d <- getD ;;
  let repoName := Id d in
  repo <- liftResult
            (getRepositoryAptProxyFromResourceData
               interfaceSliceToStringSlice d) ;;
  err <- callRepositoryUpdate repoName repo ;;
  match err with
  | Some e => hret (Some e)
  | None =>
      err <- callSetRepositoryToResourceData repo ;;
      match err with
      | Some e => hret (Some e)
      | None => resourceRepositoryRead
      end
  end.

Definition resourceRepositoryAptProxyDelete : Handler C (option error) :=
  d <- getD ;;
  callRepositoryDelete (Id d).

Definition resourceRepositoryAptProxyExists
  : Handler C (bool * option error) :=
  d <- getD ;;
  res <- callRepositoryRead (Id d) ;;
  hret (match res.1 with Some _ => true | None => false end, res.2).

(** Marshalling the resource data and writing the request back into it,
    as Create and Update do around their request. *)
Definition roundTrip (d : ResourceData)
  : Result (ResourceData * option error) :=
  repo ← getRepositoryAptProxyFromResourceData interfaceSliceToStringSlice d;
  setRepositoryToResourceData repo d.
End Handlers.

(** ** The handlers of the second variant *)

(** The second variant of the file has the same five handlers; Create and
    Update marshal with [getRepositoryFromResourceData], a function of the
    provider that is defined in another file and is a parameter here. *)
Module Variant2.
Section Handlers.
Context {C : Type} `{!Client C}.
Variable getRepositoryFromResourceData : ResourceData -> Result Repository.
Variable setRepositoryToResourceData :
  Repository -> ResourceData -> Result (ResourceData * option error).
Variable resourceRepositoryRead : Handler C (option error).

Definition resourceRepositoryAptProxyRead : Handler C (option error) :=
  d <- getD ;;
  res <- callRepositoryRead (Id d) ;;
  match res.2 with
  | Some e => hret (Some e)
  | None =>
      match res.1 with
      | None => _ <- callSetId EmptyString ;; hret None
      | Some repo =>
          callSetRepositoryToResourceData setRepositoryToResourceData repo
      end
  end.

Definition resourceRepositoryAptProxyCreate : Handler C (option error) :=
  d <- getD ;;
  repo <- liftResult (getRepositoryFromResourceData d) ;;
  err <- callRepositoryCreate repo ;;
  match err with
  | Some e => hret (Some e)
  | None =>
      err <- callSetRepositoryToResourceData setRepositoryToResourceData
               repo ;;
      match err with
      | Some e => hret (Some e)
      | None => resourceRepositoryAptProxyRead
      end
  end.

Definition resourceRepositoryAptProxyUpdate : Handler C (option error) :=
  d <- getD ;;
  let repoName := Id d in
  repo <- liftResult (getRepositoryFromResourceData d) ;;
  err <- callRepositoryUpdate repoName repo ;;
  match err with
  | Some e => hret (Some e)
  | None =>
      err <- callSetRepositoryToResourceData setRepositoryToResourceData
               repo ;;
      match err with
      | Some e => hret (Some e)
      | None => resourceRepositoryRead
      end
  end.

Definition resourceRepositoryAptProxyDelete : Handler C (option error) :=
  d <- getD ;;
  callRepositoryDelete (Id d).

Definition resourceRepositoryAptProxyExists
  : Handler C (bool * option error) :=
  d <- getD ;;
  res <- callRepositoryRead (Id d) ;;
  hret (match res.1 with Some _ => true | None => false end, res.2).
End Handlers.
End Variant2.

(** ** Concrete configurations and a mock of the client *)

Module Example.
(** An instance of the helper: every element is asserted to be a
    string. *)
Fixpoint stringsOf (l : list value) : Result (list string) :=
  match l with
  | [] => mret []
  | v :: l' => s ← assertString v; r ← stringsOf l'; mret (s :: r)
  end.

(** The blocks of the example usage in the header of the source file,
    as the SDK's reader presents them. *)
Definition storage : value :=
  VList [VMap (list_to_map
    [("blob_store_name", VString "default");
     ("strict_content_type_validation", VBool true)])].
Definition cleanup : value :=
  VList [VMap (list_to_map [("policy_names", VSet [VString "string"])])].
Definition proxy : value :=
  VList [VMap (list_to_map
    [("remote_url", VString "https://remote.repository.com");
     ("content_max_age", VInt 1440);
     ("metadata_max_age", VInt 1440)])].
Definition negative_cache : value :=
  VList [VMap (list_to_map [("enabled", VBool true); ("ttl", VInt 1440)])].
Definition connectionConfig : gmap string value :=
  list_to_map
    [("retries", VInt 0);
     ("user_agent_suffix", VString "string");
     ("timeout", VInt 60);
     ("enable_circular_redirects", VBool false);
     ("enable_cookies", VBool false);
     ("use_trust_store", VBool false)].
Definition connection : value := VList [VMap connectionConfig].
Definition authentication : value :=
  VList [VMap (list_to_map
    [("type", VString "username");
     ("username", VString "string");
     ("password", VString "string");
     ("ntlm_host", VString "string");
     ("ntlm_domain", VString "string")])].
Definition httpClientConfig : gmap string value :=
  list_to_map
    [("blocked", VBool false);
     ("auto_block", VBool true);
     ("connection", connection);
     ("authentication", authentication)].
Definition http_client : value := VList [VMap httpClientConfig].
(** The same block without a [connection] sub-block. *)
Definition http_client_plain : value :=
  VList [VMap (list_to_map
    [("blocked", VBool false);
     ("auto_block", VBool true);
     ("connection", VList []);
     ("authentication", authentication)])].
Definition apt : value :=
  VList [VMap (list_to_map
    [("distribution", VString "bionic"); ("flat", VBool false)])].

(** The example usage, whole (its negative cache with the key [ttl] of
    the schema). *)
Definition full : ResourceData :=
  mkResourceData SchemaV1.Schema EmptyString (list_to_map
    [("name", VString "apt-proxy");
     ("online", VBool true);
     ("storage", storage);
     ("cleanup", cleanup);
     ("proxy", proxy);
     ("negative_cache", negative_cache);
     ("http_client", http_client);
     ("routing_rule", VString "string");
     ("apt", apt)]).

(** The example usage without the [connection] sub-block. *)
Definition plain : ResourceData :=
  mkResourceData SchemaV1.Schema EmptyString (list_to_map
    [("name", VString "apt-proxy");
     ("online", VBool true);
     ("storage", storage);
     ("cleanup", cleanup);
     ("proxy", proxy);
     ("negative_cache", negative_cache);
     ("http_client", http_client_plain);
     ("routing_rule", VString "string");
     ("apt", apt)]).

(** [plain] without a routing rule. *)
Definition unrouted : ResourceData :=
  mkResourceData SchemaV1.Schema EmptyString (delete "routing_rule" (rd_fields plain)).

(** The request that [plain] is marshalled to. *)
Definition plainRepository : Repository :=
  mkRepository "apt" "apt-proxy" true "proxy"
    (Some (mkRepositoryApt "bionic" false))
    (Some (mkRepositoryCleanup ["string"]))
    None
    (Some (mkRepositoryHTTPClient true false
             (Some (mkRepositoryHTTPClientAuthentication
                      "string" "string" "username" "string" "string"))
             None))
    (Some (mkRepositoryNegativeCache true 1440))
    (Some (mkRepositoryProxy 1440 1440 "https://remote.repository.com"))
    (Some (mkRepositoryStorage "default" true None)).

(** A mock of the Nexus server: the repositories it holds, and how many
    more requests it answers before every request fails. *)
Record Server : Type := mkServer {
  alive : nat;
  repositories : gmap string Repository;
}.

Definition refused : error := "connection refused".

#[global] Instance Server_Client : Client Server := {|
  RepositoryCreate c repo :=
    match alive c with
    | O => (c, Some refused)
    | S n =>
        match repositories c !! Name repo with
        | Some _ => (mkServer n (repositories c), Some "repository exists")
        | None => (mkServer n (<[Name repo := repo]> (repositories c)), None)
        end
    end;
  RepositoryRead c id :=
    match alive c with
    | O => (c, (None, Some refused))
    | S n => (mkServer n (repositories c), (repositories c !! id, None))
    end;
  RepositoryUpdate c id repo :=
    match alive c with
    | O => (c, Some refused)
    | S n =>
        match repositories c !! id with
        | Some _ => (mkServer n (<[id := repo]> (repositories c)), None)
        | None => (mkServer n (repositories c), Some "repository not found")
        end
    end;
  RepositoryDelete c id :=
    match alive c with
    | O => (c, Some refused)
    | S n => (mkServer n (delete id (repositories c)), None)
    end;
|}.

(** An instance of [setRepositoryToResourceData]: it sets the id to the
    name of the repository and reports no error. *)
Definition setIdOnly (repo : Repository) (d : ResourceData)
  : Result (ResourceData * option error) :=
  Ok (SetId (Name repo) d, None).

(** A server that answers [n] requests and holds nothing. *)
Definition emptyServer (n : nat) : Server := mkServer n ∅.

(** A server that answers [n] requests and holds the repository of the
    example usage. *)
Definition serverWithRepository (n : nat) : Server :=
  mkServer n {[ "apt-proxy" := plainRepository ]}.

(** The resource data of the example usage once the resource has its
    id. *)
Definition created : ResourceData := SetId "apt-proxy" plain.

(** The state a handler starts in. *)
Definition start (d : ResourceData) (c : Server) : State Server :=
  mkState d c [].
End Example.

(** Further configurations and instances for the handlers. *)
Module Cases.
(** The example usage with an empty [cleanup] block, which the reader of
    the SDK presents as a nil element. *)
Definition nilCleanup : ResourceData :=
  withField "cleanup" (VList [VNil]) Example.plain.

(** An instance of [setRepositoryToResourceData] that leaves the resource
    data as it is and reports no error. *)
Definition setNothing (repo : Repository) (d : ResourceData)
  : Result (ResourceData * option error) :=
  Ok (d, None).

(** An instance of [setRepositoryToResourceData] that reports an error. *)
Definition setError : error := "invalid value".
Definition setFails (repo : Repository) (d : ResourceData)
  : Result (ResourceData * option error) :=
  Ok (d, Some setError).
End Cases.

(** ** Properties of the schemas *)

(** The second schema is the first one with [format] and [type] in
    front. *)
Lemma SchemaV2_extends_SchemaV1 :
  SchemaV2.Schema =
    ("format", TypeString) :: ("type", TypeString) :: SchemaV1.Schema.
Proof. reflexivity. Qed.

(** ** Properties of the marshalling function *)

Lemma bind_Ok {A B} (r : Result A) (f : A -> Result B) (b : B) :
  (r ≫= f) = Ok b -> exists a, r = Ok a /\ f a = Ok b.
Proof. destruct r as [a|]; [eauto | discriminate]. Qed.

Lemma bind_Panic {A B} (r : Result A) (f : A -> Result B) :
  r = Panic -> (r ≫= f) = Panic.
Proof. intros ->. reflexivity. Qed.

Lemma bind_Panic_r {A B} (r : Result A) (f : A -> Result B) :
  (forall a, f a = Panic) -> (r ≫= f) = Panic.
Proof. intros Hf. destruct r; [apply Hf | reflexivity]. Qed.

(** Splits a hypothesis [(x ← r; k) = Ok b] into its steps. *)
Ltac inv_bind H :=
  repeat match type of H with
  | (_ ≫= _) = Ok _ =>
      let a := fresh "a" in
      let Ha := fresh "Hstep" in
      apply bind_Ok in H as (a & Ha & H)
  | mret _ = Ok _ => injection H as H
  | Ok _ = Ok _ => injection H as H
  end.

Lemma Get_withField_ne d k k' v :
  k <> k' -> Get (withField k v d) k' = Get d k'.
Proof.
  intros Hne. unfold Get, withField. simpl.
  by rewrite lookup_insert_ne.
Qed.

Lemma GetOk_withField_ne d k k' v :
  k <> k' -> GetOk (withField k v d) k' = GetOk d k'.
Proof.
  intros Hne. unfold GetOk, withField. simpl.
  by rewrite lookup_insert_ne.
Qed.

(** The marshalling function reads [d] through the keys of [readKeys]
    only: two resource data that agree on them are marshalled alike. *)
Lemma getRepositoryAptProxyFromResourceData_ext iss d1 d2 :
  (forall k, In k readKeys ->
             Get d1 k = Get d2 k /\ GetOk d1 k = GetOk d2 k) ->
  getRepositoryAptProxyFromResourceData iss d1 =
  getRepositoryAptProxyFromResourceData iss d2.
Proof.
  intros H.
  unfold getRepositoryAptProxyFromResourceData, readApt, readCleanup,
    readGroup, readHTTPClient, readNegativeCache, readProxy, readStorage.
  repeat match goal with
  | |- context [Get d1 ?k] =>
      rewrite (proj1 (H k ltac:(simpl; tauto)))
  | |- context [GetOk d1 ?k] =>
      rewrite (proj2 (H k ltac:(simpl; tauto)))
  end.
  reflexivity.
Qed.

(** The value of [routing_rule] has no influence on the request. *)
Lemma routing_rule_not_read iss d v :
  getRepositoryAptProxyFromResourceData iss (withField "routing_rule" v d) =
  getRepositoryAptProxyFromResourceData iss d.
Proof.
  apply getRepositoryAptProxyFromResourceData_ext.
  intros k Hk. simpl in Hk.
  split; [apply Get_withField_ne | apply GetOk_withField_ne];
    intros <-; intuition discriminate.
Qed.

(** *** Typing of the values the reader hands out *)

Lemma hasType_TypeList_elem elem l m :
  hasType (TypeList elem) (VList l) = true ->
  In (VMap m) l ->
  blockHasType elem m = true.
Proof.
  simpl. intros Hl Hin.
  rewrite forallb_forall in Hl. specialize (Hl _ Hin). simpl in Hl.
  unfold blockHasType.
  revert Hl. generalize elem as fs.
  induction fs as [|[k t] fs IH]; simpl; [done|].
  intros [H1 H2]%andb_prop. rewrite H1. simpl. by apply IH.
Qed.

Lemma blockHasType_lookup elem m k t v :
  blockHasType elem m = true ->
  In (k, t) elem ->
  m !! k = Some v ->
  hasType t v = true.
Proof.
  unfold blockHasType. rewrite forallb_forall.
  intros H Hin Hv. specialize (H _ Hin). simpl in H. by rewrite Hv in H.
Qed.

Lemma conforms_lookup d k t v :
  conforms d = true ->
  In (k, t) (rd_schema d) ->
  rd_fields d !! k = Some v ->
  hasType t v = true.
Proof. apply blockHasType_lookup. Qed.

(** In a configuration that conforms to the schema, the values of a
    [connection] sub-block have the types of its schema. *)
Lemma conforms_connection d hc conn :
  rd_schema d = SchemaV1.Schema ->
  conforms d = true ->
  rd_fields d !! "http_client" = Some (VList [VMap hc]) ->
  hc !! "connection" = Some (VList [VMap conn]) ->
  blockHasType SchemaV1.connection conn = true.
Proof.
  intros Hs Hc Hh Hconn.
  assert (hasType (TypeList SchemaV1.http_client) (VList [VMap hc]) = true)
    as Hhc.
  { apply (conforms_lookup d "http_client"); [done| |done].
    rewrite Hs. simpl. tauto. }
  apply hasType_TypeList_elem with (m := hc) in Hhc; [|by left].
  assert (hasType (TypeList SchemaV1.connection) (VList [VMap conn]) = true)
    as Hcn.
  { apply (blockHasType_lookup SchemaV1.http_client hc "connection");
      [done| |done].
    simpl. tauto. }
  apply hasType_TypeList_elem with (m := conn) in Hcn; [done|by left].
Qed.

(** An [int], or no value at all, is not a [*int]. *)
Lemma assertIntPtr_TypeInt conn k :
  match conn !! k with Some v => hasType TypeInt v | None => true end = true ->
  assertIntPtr (mapIndex conn k) = Panic.
Proof.
  unfold mapIndex. destruct (conn !! k) as [v|]; simpl; [|done].
  by destruct v.
Qed.

(** With a [connection] sub-block whose [retries] is not a [*int], the
    sub-block is not read: the type assertion on [retries] panics. *)
Lemma readConnection_Panic hc conn :
  hc !! "connection" = Some (VList [VMap conn]) ->
  assertIntPtr (mapIndex conn "retries") = Panic ->
  readConnection hc = Panic.
Proof.
  intros Hconn Hr. unfold readConnection. rewrite Hconn. simpl.
  by rewrite Hr.
Qed.

Lemma readConnection_conforms_Panic d hc conn :
  rd_schema d = SchemaV1.Schema ->
  conforms d = true ->
  rd_fields d !! "http_client" = Some (VList [VMap hc]) ->
  hc !! "connection" = Some (VList [VMap conn]) ->
  readConnection hc = Panic.
Proof.
  intros Hs Hc Hh Hconn.
  apply (readConnection_Panic hc conn); [done|].
  apply assertIntPtr_TypeInt.
  pose proof (conforms_connection d hc conn Hs Hc Hh Hconn) as Ht.
  unfold blockHasType in Ht. simpl in Ht.
  by apply andb_prop in Ht as [Ht _].
Qed.

Lemma readHTTPClient_Panic d hc repo :
  schemaLookup (rd_schema d) "http_client" =
    Some (TypeList SchemaV1.http_client) ->
  rd_fields d !! "http_client" = Some (VList [VMap hc]) ->
  readConnection hc = Panic ->
  readHTTPClient d repo = Panic.
Proof.
  intros Hs Hh Hconn. unfold readHTTPClient, GetOk, Get.
  rewrite Hs, Hh. simpl.
  do 3 (apply bind_Panic_r; intros ?).
  by apply bind_Panic.
Qed.

Lemma getRepositoryAptProxyFromResourceData_Panic iss d :
  (forall repo, readHTTPClient d repo = Panic) ->
  getRepositoryAptProxyFromResourceData iss d = Panic.
Proof.
  intros H. unfold getRepositoryAptProxyFromResourceData.
  do 5 (apply bind_Panic_r; intros ?).
  apply bind_Panic, H.
Qed.

(** *** What each block assigns *)

Lemma setApt_id r : setApt (Apt r) r = r.
Proof. by destruct r. Qed.
Lemma setCleanup_id r : setCleanup (Cleanup r) r = r.
Proof. by destruct r. Qed.
Lemma setGroup_id r : setGroup (Group r) r = r.
Proof. by destruct r. Qed.
Lemma setHTTPClient_id r : setHTTPClient (HTTPClient r) r = r.
Proof. by destruct r. Qed.
Lemma setNegativeCache_id r : setNegativeCache (NegativeCache r) r = r.
Proof. by destruct r. Qed.
Lemma setProxy_id r : setProxy (Proxy r) r = r.
Proof. by destruct r. Qed.
Lemma setStorage_id r : setStorage (Storage r) r = r.
Proof. by destruct r. Qed.

(** Closes [readX d r = Ok r' -> r' = setX (X r') r] once the block is
    unfolded: the block either assigns its field or leaves [r] as it is. *)
Ltac block_shape id_lemma :=
  case_match;
  [ let H := fresh "H" in intros H; inv_bind H; subst; reflexivity
  | intros [= <-]; symmetry; apply id_lemma ].

Lemma readApt_Ok d r r' : readApt d r = Ok r' -> r' = setApt (Apt r') r.
Proof. unfold readApt. block_shape setApt_id. Qed.

Lemma readCleanup_Ok iss d r r' :
  readCleanup iss d r = Ok r' -> r' = setCleanup (Cleanup r') r.
Proof. unfold readCleanup. block_shape setCleanup_id. Qed.

Lemma readGroup_Ok d r r' :
  readGroup d r = Ok r' -> r' = setGroup (Group r') r.
Proof. unfold readGroup. block_shape setGroup_id. Qed.

Lemma readHTTPClient_Ok d r r' :
  readHTTPClient d r = Ok r' -> r' = setHTTPClient (HTTPClient r') r.
Proof. unfold readHTTPClient. block_shape setHTTPClient_id. Qed.

Lemma readNegativeCache_Ok d r r' :
  readNegativeCache d r = Ok r' ->
  r' = setNegativeCache (NegativeCache r') r.
Proof. unfold readNegativeCache. block_shape setNegativeCache_id. Qed.

Lemma readProxy_Ok d r r' :
  readProxy d r = Ok r' -> r' = setProxy (Proxy r') r.
Proof. unfold readProxy. block_shape setProxy_id. Qed.

Lemma readStorage_Ok d r r' :
  readStorage d r = Ok r' -> r' = setStorage (Storage r') r.
Proof. unfold readStorage. block_shape setStorage_id. Qed.

(** A key that the schema does not have is never found. *)
Lemma GetOk_unknown d key :
  schemaLookup (rd_schema d) key = None -> GetOk d key = (VNil, false).
Proof. intros H. unfold GetOk. by rewrite H. Qed.

Lemma readGroup_unknown d r :
  schemaLookup (rd_schema d) "group" = None -> readGroup d r = Ok r.
Proof. intros H. unfold readGroup. by rewrite GetOk_unknown. Qed.

(** The storage block of a repository that is not hosted has no write
    policy. *)
Lemma readStorage_WritePolicy d r r' st :
  readStorage d r = Ok r' ->
  Type_ r <> RepositoryTypeHosted ->
  Storage r = None ->
  Storage r' = Some st ->
  WritePolicy st = None.
Proof.
  unfold readStorage. intros H Hty Hnone Hst.
  destruct (GetOk d "storage").2.
  - apply String.eqb_neq in Hty. rewrite Hty in H.
    inv_bind H. injection Hstep4 as <-. subst r'. simpl in Hst.
    by injection Hst as <-.
  - injection H as <-. congruence.
Qed.

(** The steps of a run of the marshalling function that returns. *)
Lemma getRepositoryAptProxyFromResourceData_Ok iss d repo :
  getRepositoryAptProxyFromResourceData iss d = Ok repo ->
  exists name online r1 r2 r3 r4 r5 r6,
    assertString (Get d "name") = Ok name /\
    assertBool (Get d "online") = Ok online /\
    readApt d (mkRepository "apt" name online "proxy"
                 None None None None None None None) = Ok r1 /\
    readCleanup iss d r1 = Ok r2 /\
    readGroup d r2 = Ok r3 /\
    readHTTPClient d r3 = Ok r4 /\
    readNegativeCache d r4 = Ok r5 /\
    readProxy d r5 = Ok r6 /\
    readStorage d r6 = Ok repo.
Proof.
  unfold getRepositoryAptProxyFromResourceData. intros H.
  apply bind_Ok in H as (name & Hname & H).
  apply bind_Ok in H as (online & Honline & H).
  apply bind_Ok in H as (r1 & H1 & H).
  apply bind_Ok in H as (r2 & H2 & H).
  apply bind_Ok in H as (r3 & H3 & H).
  apply bind_Ok in H as (r4 & H4 & H).
  apply bind_Ok in H as (r5 & H5 & H).
  apply bind_Ok in H as (r6 & H6 & H).
  exists name, online, r1, r2, r3, r4, r5, r6. tauto.
Qed.

(** *** The claims about the marshalling function *)

(** C1. The claim is that every configured field of the schema, the
    routing rule included, is carried into the request. On the example
    usage of the source file (without its connection sub-block) the
    function returns the request [Example.plainRepository], and it returns
    the very same request when the routing rule is not configured at all:
    a configured [routing_rule] leaves no mark on the request. *)
Theorem getRepositoryAptProxyFromResourceData_drops_routing_rule :
  Get Example.plain "routing_rule" = VString "string" /\
  (GetOk Example.unrouted "routing_rule").2 = false /\
  getRepositoryAptProxyFromResourceData Example.stringsOf Example.plain =
    Ok Example.plainRepository /\
  forall iss,
    getRepositoryAptProxyFromResourceData iss Example.plain =
    getRepositoryAptProxyFromResourceData iss Example.unrouted.
Proof.
  split; [reflexivity|]. split; [reflexivity|].
  split; [vm_compute; reflexivity|].
  intros iss.
  replace Example.plain
    with (withField "routing_rule" (VString "string") Example.unrouted)
    by (vm_compute; reflexivity).
  apply routing_rule_not_read.
Qed.

(** C2. The claim is that with a connection sub-block the function
    completes and fills in [Connection]. It does not: for every
    configuration of the resource that conforms to the schema and has an
    [http_client] block with a [connection] sub-block, the function
    panics, because [retries] is an [int] there and is asserted to be a
    [*int]. *)
Theorem getRepositoryAptProxyFromResourceData_connection_panics
  (iss : list value -> Result (list string)) (d : ResourceData)
  (hc conn : gmap string value) :
  rd_schema d = SchemaV1.Schema ->
  conforms d = true ->
  rd_fields d !! "http_client" = Some (VList [VMap hc]) ->
  hc !! "connection" = Some (VList [VMap conn]) ->
  getRepositoryAptProxyFromResourceData iss d = Panic.
Proof.
  intros Hs Hc Hh Hconn.
  apply getRepositoryAptProxyFromResourceData_Panic. intros repo.
  apply (readHTTPClient_Panic d hc); [by rewrite Hs|done|].
  by apply (readConnection_conforms_Panic d hc conn).
Qed.

(** The example usage of the source file is such a configuration. *)
Lemma getRepositoryAptProxyFromResourceData_connection_panics_witness :
  getRepositoryAptProxyFromResourceData Example.stringsOf Example.full = Panic.
Proof.
  apply (getRepositoryAptProxyFromResourceData_connection_panics
           Example.stringsOf Example.full
           Example.httpClientConfig Example.connectionConfig).
  - reflexivity.
  - vm_compute. reflexivity.
  - vm_compute. reflexivity.
  - vm_compute. reflexivity.
Defined.

(** Projections of a repository whose block [X] was assigned. *)
Ltac project_shape H :=
  let HF := fresh "HFormat" in
  let HT := fresh "HType" in
  let HG := fresh "HGroup" in
  let HS := fresh "HStorage" in
  pose proof (f_equal Format H) as HF;
  pose proof (f_equal Type_ H) as HT;
  pose proof (f_equal Group H) as HG;
  pose proof (f_equal Storage H) as HS;
  simpl in HF, HT, HG, HS.

(** C8. Every request that the function returns for a resource data of
    the apt proxy schema has format "apt" and type "proxy", has no group
    (the schema has no [group] key, so [GetOk] never finds one), and its
    storage, when there is one, has no write policy (the branch for hosted
    repositories is not taken). *)
Theorem getRepositoryAptProxyFromResourceData_apt_proxy
  (iss : list value -> Result (list string)) (d : ResourceData)
  (repo : Repository) :
  rd_schema d = SchemaV1.Schema ->
  getRepositoryAptProxyFromResourceData iss d = Ok repo ->
  Format repo = "apt" /\
  Type_ repo = "proxy" /\
  Group repo = None /\
  (forall st, Storage repo = Some st -> WritePolicy st = None).
Proof.
  intros Hs H.
  apply getRepositoryAptProxyFromResourceData_Ok in H
    as (name & online & r1 & r2 & r3 & r4 & r5 & r6 &
        _ & _ & H1 & H2 & H3 & H4 & H5 & H6 & H7).
  rewrite readGroup_unknown in H3 by (by rewrite Hs).
  injection H3 as <-.
  pose proof (readApt_Ok _ _ _ H1) as E1. project_shape E1.
  pose proof (readCleanup_Ok _ _ _ _ H2) as E2. project_shape E2.
  pose proof (readHTTPClient_Ok _ _ _ H4) as E4. project_shape E4.
  pose proof (readNegativeCache_Ok _ _ _ H5) as E5. project_shape E5.
  pose proof (readProxy_Ok _ _ _ H6) as E6. project_shape E6.
  pose proof (readStorage_Ok _ _ _ H7) as E7. project_shape E7.
  assert (Type_ r6 = "proxy") as Hty by congruence.
  repeat split; try congruence.
  intros st Hst.
  apply (readStorage_WritePolicy d r6 repo st); [done| |congruence|done].
  rewrite Hty. discriminate.
Qed.

(** The example usage without its connection sub-block is marshalled to
    such a request. *)
Lemma getRepositoryAptProxyFromResourceData_apt_proxy_witness :
  Format Example.plainRepository = "apt" /\
  Type_ Example.plainRepository = "proxy" /\
  Group Example.plainRepository = None /\
  (forall st, Storage Example.plainRepository = Some st ->
              WritePolicy st = None).
Proof.
  apply (getRepositoryAptProxyFromResourceData_apt_proxy
           Example.stringsOf Example.plain Example.plainRepository).
  - reflexivity.
  - vm_compute. reflexivity.
Defined.

(** ** Properties of the handlers *)

Section HandlerProperties.
Context {C : Type} `{!Client C}.
Variable interfaceSliceToStringSlice : list value -> Result (list string).
Variable setRepositoryToResourceData :
  Repository -> ResourceData -> Result (ResourceData * option error).
Variable resourceRepositoryRead : Handler C (option error).

Abbreviation marshal :=
  (getRepositoryAptProxyFromResourceData interfaceSliceToStringSlice).
Abbreviation Create :=
  (resourceRepositoryAptProxyCreate interfaceSliceToStringSlice
     setRepositoryToResourceData).
Abbreviation Read :=
  (resourceRepositoryAptProxyRead setRepositoryToResourceData).
Abbreviation Update :=
  (resourceRepositoryAptProxyUpdate interfaceSliceToStringSlice
     setRepositoryToResourceData resourceRepositoryRead).
Abbreviation Delete := (@resourceRepositoryAptProxyDelete C _).
Abbreviation Exists := (@resourceRepositoryAptProxyExists C _).
Abbreviation callSet :=
  (callSetRepositoryToResourceData setRepositoryToResourceData).

(** *** One equation per handler *)

Lemma Read_eq (s : State C) c repo err :
  RepositoryRead (st_client s) (Id (st_d s)) = (c, (repo, err)) ->
  Read s =
    let s1 := after (EvRepositoryRead (Id (st_d s))) c s in
    match err, repo with
    | Some e, _ => Returned (Some e) s1
    | None, None =>
        Returned None (mkState (SetId EmptyString (st_d s)) c (st_trace s1))
    | None, Some repo => callSet repo s1
    end.
Proof.
  intros H.
  unfold resourceRepositoryAptProxyRead, hbind, getD, callRepositoryRead.
  simpl. rewrite H. simpl. by destruct err, repo.
Qed.

Lemma Exists_eq (s : State C) c repo err :
  RepositoryRead (st_client s) (Id (st_d s)) = (c, (repo, err)) ->
  Exists s =
    Returned (match repo with Some _ => true | None => false end, err)
      (after (EvRepositoryRead (Id (st_d s))) c s).
Proof.
  intros H.
  unfold resourceRepositoryAptProxyExists, hbind, getD, callRepositoryRead.
  simpl. by rewrite H.
Qed.

Lemma Delete_eq (s : State C) c err :
  RepositoryDelete (st_client s) (Id (st_d s)) = (c, err) ->
  Delete s = Returned err (after (EvRepositoryDelete (Id (st_d s))) c s).
Proof.
  intros H.
  unfold resourceRepositoryAptProxyDelete, hbind, getD,
    callRepositoryDelete.
  simpl. by rewrite H.
Qed.

Lemma Create_panic (s : State C) :
  marshal (st_d s) = Panic -> Create s = Panicked s.
Proof.
  intros H. unfold resourceRepositoryAptProxyCreate, hbind, getD, liftResult.
  simpl. by rewrite H.
Qed.

Lemma Create_eq (s : State C) repo c err :
  marshal (st_d s) = Ok repo ->
  RepositoryCreate (st_client s) repo = (c, err) ->
  Create s =
    let s1 := after (EvRepositoryCreate repo) c s in
    match err with
    | Some e => Returned (Some e) s1
    | None =>
        match callSet repo s1 with
        | Returned (Some e) s2 => Returned (Some e) s2
        | Returned None s2 => Read s2
        | Panicked s2 => Panicked s2
        end
    end.
Proof.
  intros Hm Hc.
  unfold resourceRepositoryAptProxyCreate, hbind, getD, liftResult,
    callRepositoryCreate.
  simpl. rewrite Hm. simpl. rewrite Hc. simpl.
  destruct err as [e|]; [done|].
  fold (after (EvRepositoryCreate repo) c s).
  destruct (callSet repo _) as [[e|] s2|s2]; done.
Qed.

Lemma Update_panic (s : State C) :
  marshal (st_d s) = Panic -> Update s = Panicked s.
Proof.
  intros H. unfold resourceRepositoryAptProxyUpdate, hbind, getD, liftResult.
  simpl. by rewrite H.
Qed.

Lemma Update_eq (s : State C) repo c err :
  marshal (st_d s) = Ok repo ->
  RepositoryUpdate (st_client s) (Id (st_d s)) repo = (c, err) ->
  Update s =
    let s1 := after (EvRepositoryUpdate (Id (st_d s)) repo) c s in
    match err with
    | Some e => Returned (Some e) s1
    | None =>
        match callSet repo s1 with
        | Returned (Some e) s2 => Returned (Some e) s2
        | Returned None s2 => resourceRepositoryRead s2
        | Panicked s2 => Panicked s2
        end
    end.
Proof.
  intros Hm Hc.
  unfold resourceRepositoryAptProxyUpdate, hbind, getD, liftResult,
    callRepositoryUpdate.
  simpl. rewrite Hm. simpl. rewrite Hc. simpl.
  destruct err as [e|]; [done|].
  fold (after (EvRepositoryUpdate (Id (st_d s)) repo) c s).
  destruct (callSet repo _) as [[e|] s2|s2]; done.
Qed.

(** [setRepositoryToResourceData] issues no request. *)
Lemma callSet_eq repo (s : State C) :
  callSet repo s =
    let t := st_trace s ++ [EvSetRepositoryToResourceData repo] in
    match setRepositoryToResourceData repo (st_d s) with
    | Ok (d, err) => Returned err (mkState d (st_client s) t)
    | Panic => Panicked (mkState (st_d s) (st_client s) t)
    end.
Proof. reflexivity. Qed.

Lemma requests_snoc_set (t : list Event) repo :
  requests (t ++ [EvSetRepositoryToResourceData repo]) = requests t.
Proof.
  unfold requests. rewrite List.filter_app. simpl. by rewrite app_nil_r.
Qed.

Lemma callSet_requests repo (s : State C) :
  requests (st_trace (final (callSet repo s))) = requests (st_trace s).
Proof.
  rewrite callSet_eq. simpl.
  destruct (setRepositoryToResourceData repo (st_d s)) as [[d err]|];
    simpl; apply requests_snoc_set.
Qed.

Lemma requests_snoc (t : list Event) e :
  isRequest e = true -> requests (t ++ [e]) = requests t ++ [e].
Proof.
  intros He. unfold requests. rewrite List.filter_app. simpl.
  by rewrite He.
Qed.

Lemma Read_requests (s : State C) :
  requests (st_trace (final (Read s))) =
  requests (st_trace s) ++ [EvRepositoryRead (Id (st_d s))].
Proof.
  destruct (RepositoryRead (st_client s) (Id (st_d s)))
    as [c [repo err]] eqn:H.
  rewrite (Read_eq s c repo err H). simpl.
  destruct err as [e|], repo as [repo|]; simpl;
    rewrite ?callSet_requests; simpl; by apply requests_snoc.
Qed.
(** *** The claims about the handlers *)

(** C6. Exists issues one [RepositoryRead] for the id of the resource and
    nothing else, returns true exactly when the client returned a
    repository, and returns the client's error as it is; the resource data
    is not touched. *)
Theorem Exists_delegates_one_read (s : State C) c repo err :
  RepositoryRead (st_client s) (Id (st_d s)) = (c, (repo, err)) ->
  exists b : bool,
    Exists s =
      Returned (b, err)
        (mkState (st_d s) c
           (st_trace s ++ [EvRepositoryRead (Id (st_d s))])) /\
    (b = true <-> repo <> None).
Proof.
  intros H. rewrite (Exists_eq s c repo err H).
  eexists. split; [reflexivity|].
  destruct repo; split; congruence.
Qed.

(** C9. When [RepositoryRead] returns neither a repository nor an error,
    Read returns nil, the id of the resource is the empty string
    afterwards, the schema and the values of the resource data are what
    they were, and [setRepositoryToResourceData] is not called. *)
Theorem Read_of_missing_repository (s : State C) c :
  RepositoryRead (st_client s) (Id (st_d s)) = (c, (None, None)) ->
  returned (Read s) = Some None /\
  Id (st_d (final (Read s))) = EmptyString /\
  rd_fields (st_d (final (Read s))) = rd_fields (st_d s) /\
  rd_schema (st_d (final (Read s))) = rd_schema (st_d s) /\
  st_trace (final (Read s)) =
    st_trace s ++ [EvRepositoryRead (Id (st_d s))].
Proof.
  intros H. rewrite (Read_eq s c None None H). simpl. done.
Qed.

(** C4. An error of the client is what the handler returns: the error of
    [RepositoryCreate] and of the [RepositoryRead] that follows it in
    Create, of [RepositoryRead] in Read and in Exists, of
    [RepositoryUpdate] in Update and of [RepositoryDelete] in Delete. *)
Theorem client_error_is_returned (s : State C) (e : error) :
  (forall repo c,
     marshal (st_d s) = Ok repo ->
     RepositoryCreate (st_client s) repo = (c, Some e) ->
     returned (Create s) = Some (Some e)) /\
  (forall repo c1 d1 c2 found,
     marshal (st_d s) = Ok repo ->
     RepositoryCreate (st_client s) repo = (c1, None) ->
     setRepositoryToResourceData repo (st_d s) = Ok (d1, None) ->
     RepositoryRead c1 (Id d1) = (c2, (found, Some e)) ->
     returned (Create s) = Some (Some e)) /\
  (forall c found,
     RepositoryRead (st_client s) (Id (st_d s)) = (c, (found, Some e)) ->
     returned (Read s) = Some (Some e)) /\
  (forall repo c,
     marshal (st_d s) = Ok repo ->
     RepositoryUpdate (st_client s) (Id (st_d s)) repo = (c, Some e) ->
     returned (Update s) = Some (Some e)) /\
  (forall c,
     RepositoryDelete (st_client s) (Id (st_d s)) = (c, Some e) ->
     returned (Delete s) = Some (Some e)) /\
  (forall c found,
     RepositoryRead (st_client s) (Id (st_d s)) = (c, (found, Some e)) ->
     snd <$> returned (Exists s) = Some (Some e)).
Proof.
  repeat split.
  - intros repo c Hm Hc. by rewrite (Create_eq s repo c _ Hm Hc).
  - intros repo c1 d1 c2 found Hm Hc Hset Hr.
    rewrite (Create_eq s repo c1 _ Hm Hc). simpl.
    rewrite callSet_eq. simpl. rewrite Hset.
    by rewrite (Read_eq (mkState d1 c1 _) c2 found (Some e) Hr).
  - intros c found Hr. by rewrite (Read_eq s c found _ Hr).
  - intros repo c Hm Hc. by rewrite (Update_eq s repo c _ Hm Hc).
  - intros c Hd. by rewrite (Delete_eq s c _ Hd).
  - intros c found Hr. by rewrite (Exists_eq s c found _ Hr).
Qed.

(** C7. When [RepositoryCreate] in Create, or [RepositoryUpdate] in
    Update, returns an error, the handler returns without calling
    [setRepositoryToResourceData]: the trace ends with the failed request,
    and the resource data is the one the handler was given. *)
Theorem failed_write_leaves_resource_data (s : State C) repo c (e : error) :
  marshal (st_d s) = Ok repo ->
  (RepositoryCreate (st_client s) repo = (c, Some e) ->
   st_d (final (Create s)) = st_d s /\
   st_trace (final (Create s)) = st_trace s ++ [EvRepositoryCreate repo]) /\
  (RepositoryUpdate (st_client s) (Id (st_d s)) repo = (c, Some e) ->
   st_d (final (Update s)) = st_d s /\
   st_trace (final (Update s)) =
     st_trace s ++ [EvRepositoryUpdate (Id (st_d s)) repo]).
Proof.
  intros Hm. split.
  - intros Hc. by rewrite (Create_eq s repo c _ Hm Hc).
  - intros Hc. by rewrite (Update_eq s repo c _ Hm Hc).
Qed.

(** C3, as amended. Read, Delete and Exists issue exactly one request.
    Create issues [RepositoryCreate] once and, only when that call and
    [setRepositoryToResourceData] both report no error, one
    [RepositoryRead] after it, so one or two requests and no request after
    a failed one. Update itself issues [RepositoryUpdate] once and nothing
    else: that is its only request when the call or
    [setRepositoryToResourceData] reports an error (or the latter panics);
    when both succeed, Update is one call of [resourceRepositoryRead], on
    the written resource data, the client after the update and a trace
    with that single request more. The requests of
    [resourceRepositoryRead] itself are not part of the statement. *)
Theorem requests_of_the_handlers (s : State C) :
  requests (st_trace (final (Read s))) =
    requests (st_trace s) ++ [EvRepositoryRead (Id (st_d s))] /\
  requests (st_trace (final (Delete s))) =
    requests (st_trace s) ++ [EvRepositoryDelete (Id (st_d s))] /\
  requests (st_trace (final (Exists s))) =
    requests (st_trace s) ++ [EvRepositoryRead (Id (st_d s))] /\
  (forall repo,
     marshal (st_d s) = Ok repo ->
     requests (st_trace (final (Create s))) =
       requests (st_trace s) ++
       EvRepositoryCreate repo ::
       match (RepositoryCreate (st_client s) repo).2,
             setRepositoryToResourceData repo (st_d s) with
       | None, Ok (d1, None) => [EvRepositoryRead (Id d1)]
       | _, _ => []
       end) /\
  (forall repo,
     marshal (st_d s) = Ok repo ->
     match (RepositoryUpdate (st_client s) (Id (st_d s)) repo).2,
           setRepositoryToResourceData repo (st_d s) with
     | None, Ok (d1, None) =>
         exists s1,
           Update s = resourceRepositoryRead s1 /\
           st_d s1 = d1 /\
           st_client s1 =
             (RepositoryUpdate (st_client s) (Id (st_d s)) repo).1 /\
           requests (st_trace s1) =
             requests (st_trace s) ++
             [EvRepositoryUpdate (Id (st_d s)) repo]
     | _, _ =>
         requests (st_trace (final (Update s))) =
           requests (st_trace s) ++ [EvRepositoryUpdate (Id (st_d s)) repo]
     end).
Proof.
  split; [apply Read_requests|].
  split.
  { destruct (RepositoryDelete (st_client s) (Id (st_d s))) as [c err] eqn:H.
    rewrite (Delete_eq s c err H). simpl. by apply requests_snoc. }
  split.
  { destruct (RepositoryRead (st_client s) (Id (st_d s)))
      as [c [repo err]] eqn:H.
    rewrite (Exists_eq s c repo err H). simpl. by apply requests_snoc. }
  split.
  - intros repo Hm.
    destruct (RepositoryCreate (st_client s) repo) as [c err] eqn:Hc.
    rewrite (Create_eq s repo c err Hm Hc). simpl.
    destruct err as [e|]; simpl; [by apply requests_snoc|].
    rewrite callSet_eq. simpl.
    destruct (setRepositoryToResourceData repo (st_d s)) as [[d1 [e|]]|];
      simpl.
    + by rewrite requests_snoc_set, requests_snoc.
    + rewrite Read_requests. simpl.
      rewrite requests_snoc_set, requests_snoc by done.
      by rewrite <- app_assoc.
    + by rewrite requests_snoc_set, requests_snoc.
  - intros repo Hm.
    destruct (RepositoryUpdate (st_client s) (Id (st_d s)) repo)
      as [c err] eqn:Hc.
    rewrite (Update_eq s repo c err Hm Hc). simpl.
    destruct err as [e|]; simpl; [by apply requests_snoc|].
    rewrite callSet_eq. simpl.
    destruct (setRepositoryToResourceData repo (st_d s)) as [[d1 [e|]]|];
      simpl.
    + by rewrite requests_snoc_set, requests_snoc.
    + eexists. split; [reflexivity|]. simpl. repeat split.
      by rewrite requests_snoc_set, requests_snoc.
    + by rewrite requests_snoc_set, requests_snoc.
Qed.

Lemma roundTrip_Panic d :
  marshal d = Panic ->
  roundTrip interfaceSliceToStringSlice setRepositoryToResourceData d = Panic.
Proof. intros H. unfold roundTrip. by rewrite H. Qed.

End HandlerProperties.

(** ** The handlers on the mock *)

Module Witness.
Import Example.

Abbreviation Create :=
  (resourceRepositoryAptProxyCreate (C := Server) stringsOf setIdOnly).
Abbreviation Read :=
  (resourceRepositoryAptProxyRead (C := Server) setIdOnly).
Abbreviation Update :=
  (resourceRepositoryAptProxyUpdate (C := Server) stringsOf setIdOnly
     (resourceRepositoryAptProxyRead setIdOnly)).
Abbreviation Delete := (resourceRepositoryAptProxyDelete (C := Server)).
Abbreviation Exists := (resourceRepositoryAptProxyExists (C := Server)).

Lemma marshal_plain :
  getRepositoryAptProxyFromResourceData stringsOf plain = Ok plainRepository.
Proof. vm_compute. reflexivity. Defined.

(** Exists on a server that holds the repository. *)
Lemma Exists_delegates_one_read_witness :
  exists b : bool,
    Exists (start created (serverWithRepository 1)) =
      Returned (b, None)
        (mkState created (serverWithRepository 0)
           ([] ++ [EvRepositoryRead "apt-proxy"])) /\
    (b = true <-> Some plainRepository <> None).
Proof.
  apply (Exists_delegates_one_read (start created (serverWithRepository 1))
           (serverWithRepository 0) (Some plainRepository) None).
  reflexivity.
Defined.

(** Read on a server that does not hold the repository. *)
Lemma Read_of_missing_repository_witness :
  returned (Read (start created (emptyServer 1))) = Some None /\
  Id (st_d (final (Read (start created (emptyServer 1))))) = EmptyString /\
  rd_fields (st_d (final (Read (start created (emptyServer 1))))) =
    rd_fields created /\
  rd_schema (st_d (final (Read (start created (emptyServer 1))))) =
    rd_schema created /\
  st_trace (final (Read (start created (emptyServer 1)))) =
    [] ++ [EvRepositoryRead "apt-proxy"].
Proof.
  apply (Read_of_missing_repository setIdOnly
           (start created (emptyServer 1)) (emptyServer 0)).
  reflexivity.
Defined.
(** A server that answers nothing refuses the first request of every
    handler; one that answers a single request refuses the read that
    follows a creation. *)
Lemma client_error_is_returned_witness :
  returned (Create (start plain (emptyServer 0))) = Some (Some refused) /\
  returned (Create (start plain (emptyServer 1))) = Some (Some refused) /\
  returned (Read (start created (emptyServer 0))) = Some (Some refused) /\
  returned (Update (start created (emptyServer 0))) = Some (Some refused) /\
  returned (Delete (start created (emptyServer 0))) = Some (Some refused) /\
  snd <$> returned (Exists (start created (emptyServer 0))) =
    Some (Some refused).
Proof.
  pose proof (client_error_is_returned stringsOf setIdOnly
                (resourceRepositoryAptProxyRead setIdOnly)
                (start plain (emptyServer 0)) refused)
    as (HCreate & _).
  pose proof (client_error_is_returned stringsOf setIdOnly
                (resourceRepositoryAptProxyRead setIdOnly)
                (start plain (emptyServer 1)) refused)
    as (_ & HCreateRead & _).
  pose proof (client_error_is_returned stringsOf setIdOnly
                (resourceRepositoryAptProxyRead setIdOnly)
                (start created (emptyServer 0)) refused)
    as (_ & _ & HRead & HUpdate & HDelete & HExists).
  split.
  { apply (HCreate plainRepository (emptyServer 0));
      [exact marshal_plain | reflexivity]. }
  split.
  { apply (HCreateRead plainRepository
             (mkServer 0 {[ "apt-proxy" := plainRepository ]})
             (SetId "apt-proxy" plain)
             (mkServer 0 {[ "apt-proxy" := plainRepository ]}) None);
      [exact marshal_plain | vm_compute; reflexivity | reflexivity
      | reflexivity]. }
  split.
  { apply (HRead (emptyServer 0) None). reflexivity. }
  split.
  { apply (HUpdate plainRepository (emptyServer 0));
      [exact marshal_plain | reflexivity]. }
  split.
  { apply (HDelete (emptyServer 0)). reflexivity. }
  apply (HExists (emptyServer 0) None). reflexivity.
Defined.

(** A refused creation and a refused update. *)
Lemma failed_write_leaves_resource_data_witness :
  (st_d (final (Create (start plain (emptyServer 0)))) = plain /\
   st_trace (final (Create (start plain (emptyServer 0)))) =
     [] ++ [EvRepositoryCreate plainRepository]) /\
  (st_d (final (Update (start plain (emptyServer 0)))) = plain /\
   st_trace (final (Update (start plain (emptyServer 0)))) =
     [] ++ [EvRepositoryUpdate EmptyString plainRepository]).
Proof.
  pose proof (failed_write_leaves_resource_data stringsOf setIdOnly
                (resourceRepositoryAptProxyRead setIdOnly)
                (start plain (emptyServer 0)) plainRepository
                (emptyServer 0) refused marshal_plain)
    as [HCreate HUpdate].
  split; [apply HCreate | apply HUpdate]; reflexivity.
Defined.

(** C3, the claim as stated. A creation that succeeds issues two requests,
    the creation and the read that follows it, not exactly one. *)
Lemma Create_issues_two_requests :
  requests (st_trace (final (Create (start plain (emptyServer 2))))) =
    [EvRepositoryCreate plainRepository; EvRepositoryRead "apt-proxy"] /\
  length (requests (st_trace (final (Create (start plain (emptyServer 2))))))
    <> 1%nat.
Proof.
  assert (requests (st_trace (final (Create (start plain (emptyServer 2))))) =
          [EvRepositoryCreate plainRepository; EvRepositoryRead "apt-proxy"])
    as H by (vm_compute; reflexivity).
  split; [exact H|]. rewrite H. simpl. lia.
Qed.

(** The requests of a creation that succeeds, of an update that is
    refused and of an update that succeeds. *)
Lemma requests_of_the_handlers_witness :
  requests (st_trace (final (Create (start plain (emptyServer 2))))) =
    [] ++ [EvRepositoryCreate plainRepository;
           EvRepositoryRead "apt-proxy"] /\
  requests (st_trace (final (Update (start plain (emptyServer 0))))) =
    [] ++ [EvRepositoryUpdate EmptyString plainRepository] /\
  exists s1,
    Update (start created (serverWithRepository 2)) =
      resourceRepositoryAptProxyRead setIdOnly s1 /\
    st_d s1 = created /\
    st_client s1 = serverWithRepository 1 /\
    requests (st_trace s1) =
      [] ++ [EvRepositoryUpdate "apt-proxy" plainRepository].
Proof.
  split; [|split].
  - pose proof (requests_of_the_handlers stringsOf setIdOnly
                  (resourceRepositoryAptProxyRead setIdOnly)
                  (start plain (emptyServer 2)))
      as (_ & _ & _ & HCreate & _).
    rewrite (HCreate plainRepository marshal_plain). reflexivity.
  - pose proof (requests_of_the_handlers stringsOf setIdOnly
                  (resourceRepositoryAptProxyRead setIdOnly)
                  (start plain (emptyServer 0)))
      as (_ & _ & _ & _ & HUpdate).
    exact (HUpdate plainRepository marshal_plain).
  - pose proof (requests_of_the_handlers stringsOf setIdOnly
                  (resourceRepositoryAptProxyRead setIdOnly)
                  (start created (serverWithRepository 2)))
      as (_ & _ & _ & _ & HUpdate).
    assert (getRepositoryAptProxyFromResourceData stringsOf created =
            Ok plainRepository) as Hm by (vm_compute; reflexivity).
    exact (HUpdate plainRepository Hm).
Defined.
End Witness.

(** C5. The claim is that marshalling a resource data and writing the
    request back leaves every field as it was, for every resource data.
    On the example usage of the source file there is no request to write
    back: for every [interfaceSliceToStringSlice] and every
    [setRepositoryToResourceData] the round trip panics in the
    marshalling, and so does Create, before it issues any request. *)
Theorem roundTrip_panics_on_example_usage :
  forall (iss : list value -> Result (list string))
         (set : Repository -> ResourceData ->
                Result (ResourceData * option error)),
    roundTrip iss set Example.full = Panic /\
    forall c : Example.Server,
      resourceRepositoryAptProxyCreate iss set (Example.start Example.full c) =
        Panicked (Example.start Example.full c).
Proof.
  intros iss set.
  assert (getRepositoryAptProxyFromResourceData iss Example.full = Panic)
    as Hm.
  { apply getRepositoryAptProxyFromResourceData_Panic. intros repo.
    apply (readHTTPClient_Panic Example.full Example.httpClientConfig);
      [reflexivity | vm_compute; reflexivity |].
    apply (readConnection_Panic Example.httpClientConfig
             Example.connectionConfig); vm_compute; reflexivity. }
  split.
  - by apply roundTrip_Panic.
  - intros c. by apply Create_panic.
Qed.

(** ** What the marshalling function carries into the request *)

Lemma assertString_Ok v s : assertString v = Ok s -> v = VString s.
Proof. destruct v; simpl; congruence. Qed.
Lemma assertBool_Ok v b : assertBool v = Ok b -> v = VBool b.
Proof. destruct v; simpl; congruence. Qed.
Lemma assertInt_Ok v n : assertInt v = Ok n -> v = VInt n.
Proof. destruct v; simpl; congruence. Qed.
Lemma assertIntPtr_Ok v p : assertIntPtr v = Ok p -> v = VIntPtr p.
Proof. destruct v; simpl; congruence. Qed.
Lemma assertList_Ok v l : assertList v = Ok l -> v = VList l.
Proof. destruct v; simpl; congruence. Qed.
Lemma assertSetList_Ok v l : assertSetList v = Ok l -> v = VSet l.
Proof. destruct v; simpl; congruence. Qed.
Lemma assertMap_Ok v m : assertMap v = Ok m -> v = VMap m.
Proof. destruct v; simpl; congruence. Qed.
Lemma index0_Ok l e : index0 l = Ok e -> exists rest, l = e :: rest.
Proof. destruct l; simpl; [discriminate|]. intros [= ->]. eauto. Qed.

(** A map index that reads a value that is not nil found it in the map. *)
Lemma mapIndex_Some m k v : mapIndex m k = v -> v <> VNil -> m !! k = Some v.
Proof.
  unfold mapIndex. destruct (m !! k); simpl; intros <-; congruence.
Qed.

(** Turns the steps of a block that returned into equations on the values
    read. *)
Ltac inv_asserts :=
  repeat match goal with
  | H : assertString _ = Ok _ |- _ => apply assertString_Ok in H
  | H : assertBool _ = Ok _ |- _ => apply assertBool_Ok in H
  | H : assertInt _ = Ok _ |- _ => apply assertInt_Ok in H
  | H : assertIntPtr _ = Ok _ |- _ => apply assertIntPtr_Ok in H
  | H : assertList _ = Ok _ |- _ => apply assertList_Ok in H
  | H : assertSetList _ = Ok _ |- _ => apply assertSetList_Ok in H
  | H : assertMap _ = Ok _ |- _ => apply assertMap_Ok in H
  | H : index0 _ = Ok _ |- _ => apply index0_Ok in H as [? ->]
  | H : mapIndex _ _ = _ |- _ => apply mapIndex_Some in H; [|discriminate]
  end.

Lemma readApt_inv d r r' :
  readApt d r = Ok r' ->
  ((GetOk d "apt").2 = false /\ r' = r) \/
  (exists m rest s b,
     (GetOk d "apt").2 = true /\
     Get d "apt" = VList (VMap m :: rest) /\
     m !! "distribution" = Some (VString s) /\
     m !! "flat" = Some (VBool b) /\
     r' = setApt (Some (mkRepositoryApt s b)) r).
Proof.
  unfold readApt. destruct (GetOk d "apt").2.
  - intros H. inv_bind H. inv_asserts. subst. right.
    repeat eexists; eauto.
  - intros [= <-]. by left.
Qed.

Lemma readCleanup_inv iss d r r' :
  readCleanup iss d r = Ok r' ->
  ((GetOk d "cleanup").2 = false /\ r' = r) \/
  (exists m rest l names,
     (GetOk d "cleanup").2 = true /\
     Get d "cleanup" = VList (VMap m :: rest) /\
     m !! "policy_names" = Some (VSet l) /\
     iss l = Ok names /\
     r' = setCleanup (Some (mkRepositoryCleanup names)) r).
Proof.
  unfold readCleanup. destruct (GetOk d "cleanup").2.
  - intros H. inv_bind H. inv_asserts. subst. right.
    repeat eexists; eauto.
  - intros [= <-]. by left.
Qed.

Lemma readNegativeCache_inv d r r' :
  readNegativeCache d r = Ok r' ->
  ((GetOk d "negative_cache").2 = false /\ r' = r) \/
  (exists m rest b n,
     (GetOk d "negative_cache").2 = true /\
     Get d "negative_cache" = VList (VMap m :: rest) /\
     m !! "enabled" = Some (VBool b) /\
     m !! "ttl" = Some (VInt n) /\
     r' = setNegativeCache (Some (mkRepositoryNegativeCache b n)) r).
Proof.
  unfold readNegativeCache. destruct (GetOk d "negative_cache").2.
  - intros H. inv_bind H. inv_asserts. subst. right.
    repeat eexists; eauto.
  - intros [= <-]. by left.
Qed.

Lemma readProxy_inv d r r' :
  readProxy d r = Ok r' ->
  ((GetOk d "proxy").2 = false /\ r' = r) \/
  (exists m rest c a u,
     (GetOk d "proxy").2 = true /\
     Get d "proxy" = VList (VMap m :: rest) /\
     m !! "content_max_age" = Some (VInt c) /\
     m !! "metadata_max_age" = Some (VInt a) /\
     m !! "remote_url" = Some (VString u) /\
     r' = setProxy (Some (mkRepositoryProxy c a u)) r).
Proof.
  unfold readProxy. destruct (GetOk d "proxy").2.
  - intros H. inv_bind H. inv_asserts. subst. right.
    repeat eexists; eauto.
  - intros [= <-]. by left.
Qed.

Lemma readStorage_inv d r r' :
  Type_ r <> RepositoryTypeHosted ->
  readStorage d r = Ok r' ->
  ((GetOk d "storage").2 = false /\ r' = r) \/
  (exists m rest s b,
     (GetOk d "storage").2 = true /\
     Get d "storage" = VList (VMap m :: rest) /\
     m !! "blob_store_name" = Some (VString s) /\
     m !! "strict_content_type_validation" = Some (VBool b) /\
     r' = setStorage (Some (mkRepositoryStorage s b None)) r).
Proof.
  intros Hty%String.eqb_neq.
  unfold readStorage. rewrite Hty. destruct (GetOk d "storage").2.
  - intros H. inv_bind H. inv_asserts.
    match goal with H : mret None = Ok _ |- _ => injection H as <- end.
    subst. right. repeat eexists; eauto.
  - intros [= <-]. by left.
Qed.

Lemma readAuthentication_inv hc a :
  readAuthentication hc = Ok a ->
  match a with
  | None => forall e, hc !! "authentication" = Some (VList [e]) -> e = VNil
  | Some auth =>
      exists am,
        hc !! "authentication" = Some (VList [VMap am]) /\
        am !! "ntlm_domain" = Some (VString (NTLMDomain auth)) /\
        am !! "ntlm_host" = Some (VString (NTLMHost auth)) /\
        am !! "type" = Some (VString (AuthType auth)) /\
        am !! "username" = Some (VString (Username auth)) /\
        am !! "password" = Some (VString (Password auth))
  end.
Proof.
  unfold readAuthentication.
  destruct (hc !! "authentication") as [v|]; [|by intros [= <-]].
  intros H. apply bind_Ok in H as (l & Hl & H). apply assertList_Ok in Hl.
  subst v. destruct l as [|e [|e' l]]; try (injection H as <-; congruence).
  destruct (notNil e) eqn:He.
  - inv_bind H. inv_asserts. subst. simpl. eauto 10.
  - injection H as <-. intros e0 [= <-]. by destruct e.
Qed.

Lemma readConnection_inv hc c :
  readConnection hc = Ok c ->
  match c with
  | None => forall e, hc !! "connection" = Some (VList [e]) -> e = VNil
  | Some conn =>
      exists cm,
        hc !! "connection" = Some (VList [VMap cm]) /\
        cm !! "retries" = Some (VIntPtr (Retries conn)) /\
        cm !! "timeout" = Some (VIntPtr (Timeout conn))
  end.
Proof.
  unfold readConnection.
  destruct (hc !! "connection") as [v|]; [|by intros [= <-]].
  intros H. apply bind_Ok in H as (l & Hl & H). apply assertList_Ok in Hl.
  subst v. destruct l as [|e [|e' l]]; try (injection H as <-; congruence).
  destruct (notNil e) eqn:He.
  - inv_bind H. inv_asserts. subst. simpl. eauto 10.
  - injection H as <-. intros e0 [= <-]. by destruct e.
Qed.

Lemma readHTTPClient_inv d r r' :
  readHTTPClient d r = Ok r' ->
  ((GetOk d "http_client").2 = false /\ r' = r) \/
  (exists hc rest ab bl auth conn,
     (GetOk d "http_client").2 = true /\
     Get d "http_client" = VList (VMap hc :: rest) /\
     hc !! "auto_block" = Some (VBool ab) /\
     hc !! "blocked" = Some (VBool bl) /\
     readAuthentication hc = Ok auth /\
     readConnection hc = Ok conn /\
     r' = setHTTPClient (Some (mkRepositoryHTTPClient ab bl auth conn)) r).
Proof.
  unfold readHTTPClient. destruct (GetOk d "http_client").2.
  - intros H. inv_bind H. inv_asserts. subst. right.
    repeat eexists; eauto.
  - intros [= <-]. by left.
Qed.

(** The fields of a repository whose block [X] was assigned. *)
Ltac project_fields H :=
  pose proof (f_equal Format H);
  pose proof (f_equal Name H);
  pose proof (f_equal Online H);
  pose proof (f_equal Type_ H);
  pose proof (f_equal Apt H);
  pose proof (f_equal Cleanup H);
  pose proof (f_equal Group H);
  pose proof (f_equal HTTPClient H);
  pose proof (f_equal NegativeCache H);
  pose proof (f_equal Proxy H);
  pose proof (f_equal Storage H);
  simpl in *.

(** How the fields of the request relate to those of the intermediate
    repositories of a run that returns [repo]. *)
Lemma getRepositoryAptProxyFromResourceData_fields iss d repo :
  getRepositoryAptProxyFromResourceData iss d = Ok repo ->
  exists r0 r1 r2 r3 r4 r5 r6,
    Get d "name" = VString (Name repo) /\
    Get d "online" = VBool (Online repo) /\
    r0 = mkRepository "apt" (Name repo) (Online repo) "proxy"
           None None None None None None None /\
    readApt d r0 = Ok r1 /\
    readCleanup iss d r1 = Ok r2 /\
    readGroup d r2 = Ok r3 /\
    readHTTPClient d r3 = Ok r4 /\
    readNegativeCache d r4 = Ok r5 /\
    readProxy d r5 = Ok r6 /\
    readStorage d r6 = Ok repo /\
    Apt repo = Apt r1 /\
    Cleanup r1 = None /\ Cleanup repo = Cleanup r2 /\
    HTTPClient r3 = None /\ HTTPClient repo = HTTPClient r4 /\
    NegativeCache r4 = None /\ NegativeCache repo = NegativeCache r5 /\
    Proxy r5 = None /\ Proxy repo = Proxy r6 /\
    Storage r6 = None /\ Type_ r6 = "proxy".
Proof.
  intros H.
  apply getRepositoryAptProxyFromResourceData_Ok in H
    as (name & online & r1 & r2 & r3 & r4 & r5 & r6 &
        Hn & Ho & H1 & H2 & H3 & H4 & H5 & H6 & H7).
  apply assertString_Ok in Hn. apply assertBool_Ok in Ho.
  pose proof (readApt_Ok _ _ _ H1) as E1.
  pose proof (readCleanup_Ok _ _ _ _ H2) as E2.
  pose proof (readGroup_Ok _ _ _ H3) as E3.
  pose proof (readHTTPClient_Ok _ _ _ H4) as E4.
  pose proof (readNegativeCache_Ok _ _ _ H5) as E5.
  pose proof (readProxy_Ok _ _ _ H6) as E6.
  pose proof (readStorage_Ok _ _ _ H7) as E7.
  project_fields E1. project_fields E2. project_fields E3.
  project_fields E4. project_fields E5. project_fields E6.
  project_fields E7.
  assert (Name repo = name) as <- by congruence.
  assert (Online repo = online) as <- by congruence.
  exists (mkRepository "apt" (Name repo) (Online repo) "proxy"
            None None None None None None None), r1, r2, r3, r4, r5, r6.
  repeat split; try done; congruence.
Qed.

(** X1. The request carries the configured name and online flag: [Name]
    and [Online] of every request the function returns are the values
    that [d.Get] gives for [name] and [online]. *)
Theorem request_carries_name_and_online iss d repo :
  getRepositoryAptProxyFromResourceData iss d = Ok repo ->
  Get d "name" = VString (Name repo) /\
  Get d "online" = VBool (Online repo).
Proof.
  intros H.
  apply getRepositoryAptProxyFromResourceData_fields in H
    as (r0 & r1 & r2 & r3 & r4 & r5 & r6 & Hn & Ho & _).
  done.
Qed.

(** X2. The request has an apt part exactly when [GetOk] finds an [apt]
    block, and the part holds the [distribution] and [flat] of the first
    block of the list. *)
Theorem request_carries_apt iss d repo :
  getRepositoryAptProxyFromResourceData iss d = Ok repo ->
  match Apt repo with
  | None => (GetOk d "apt").2 = false
  | Some a =>
      (GetOk d "apt").2 = true /\
      exists m rest,
        Get d "apt" = VList (VMap m :: rest) /\
        m !! "distribution" = Some (VString (Distribution a)) /\
        m !! "flat" = Some (VBool (Flat a))
  end.
Proof.
  intros H.
  apply getRepositoryAptProxyFromResourceData_fields in H
    as (r0 & r1 & r2 & r3 & r4 & r5 & r6 & _ & _ & -> & H1 & _ & _ & _ &
        _ & _ & _ & -> & _).
  apply readApt_inv in H1
    as [[Hok ->]|(m & rest & s & b & Hok & Hg & Hd & Hf & ->)]; simpl.
  - done.
  - eauto 10.
Qed.

(** X3. The request has a cleanup part exactly when [GetOk] finds a
    [cleanup] block, and its policy names are what
    [interfaceSliceToStringSlice] makes of the list of the set
    [policy_names] of the first block. *)
Theorem request_carries_cleanup iss d repo :
  getRepositoryAptProxyFromResourceData iss d = Ok repo ->
  match Cleanup repo with
  | None => (GetOk d "cleanup").2 = false
  | Some c =>
      (GetOk d "cleanup").2 = true /\
      exists m rest l,
        Get d "cleanup" = VList (VMap m :: rest) /\
        m !! "policy_names" = Some (VSet l) /\
        iss l = Ok (PolicyNames c)
  end.
Proof.
  intros H.
  apply getRepositoryAptProxyFromResourceData_fields in H
    as (r0 & r1 & r2 & r3 & r4 & r5 & r6 & _ & _ & _ & _ & H2 & _ & _ &
        _ & _ & _ & _ & Hnone & -> & _).
  apply readCleanup_inv in H2
    as [[Hok ->]|(m & rest & l & names & Hok & Hg & Hp & Hiss & ->)]; simpl.
  - by rewrite Hnone.
  - eauto 10.
Qed.

(** X4. The request has an HTTP client part exactly when [GetOk] finds an
    [http_client] block; the part holds [auto_block] and [blocked] of the
    first block, and an authentication exactly when the block's
    [authentication] list is a single map, with the five strings of that
    map (a list of another length, or a single nil element, is passed
    over). *)
Theorem request_carries_http_client iss d repo :
  getRepositoryAptProxyFromResourceData iss d = Ok repo ->
  match HTTPClient repo with
  | None => (GetOk d "http_client").2 = false
  | Some h =>
      (GetOk d "http_client").2 = true /\
      exists hc rest,
        Get d "http_client" = VList (VMap hc :: rest) /\
        hc !! "auto_block" = Some (VBool (AutoBlock h)) /\
        hc !! "blocked" = Some (VBool (Blocked h)) /\
        match Authentication h with
        | None =>
            forall e, hc !! "authentication" = Some (VList [e]) -> e = VNil
        | Some auth =>
            exists am,
              hc !! "authentication" = Some (VList [VMap am]) /\
              am !! "ntlm_domain" = Some (VString (NTLMDomain auth)) /\
              am !! "ntlm_host" = Some (VString (NTLMHost auth)) /\
              am !! "type" = Some (VString (AuthType auth)) /\
              am !! "username" = Some (VString (Username auth)) /\
              am !! "password" = Some (VString (Password auth))
        end
  end.
Proof.
  intros H.
  apply getRepositoryAptProxyFromResourceData_fields in H
    as (r0 & r1 & r2 & r3 & r4 & r5 & r6 & _ & _ & _ & _ & _ & _ & H4 &
        _ & _ & _ & _ & _ & _ & Hnone & -> & _).
  apply readHTTPClient_inv in H4
    as [[Hok ->]|(hc & rest & ab & bl & auth & conn & Hok & Hg & Hab & Hbl &
                  Hauth & _ & ->)]; simpl.
  - by rewrite Hnone.
  - split; [done|]. exists hc, rest. repeat split; try done.
    by apply readAuthentication_inv.
Qed.

(** X5. The request has a negative cache part exactly when [GetOk] finds
    a [negative_cache] block, and the part holds [enabled] and [ttl] of
    the first block. *)
Theorem request_carries_negative_cache iss d repo :
  getRepositoryAptProxyFromResourceData iss d = Ok repo ->
  match NegativeCache repo with
  | None => (GetOk d "negative_cache").2 = false
  | Some n =>
      (GetOk d "negative_cache").2 = true /\
      exists m rest,
        Get d "negative_cache" = VList (VMap m :: rest) /\
        m !! "enabled" = Some (VBool (Enabled n)) /\
        m !! "ttl" = Some (VInt (TTL n))
  end.
Proof.
  intros H.
  apply getRepositoryAptProxyFromResourceData_fields in H
    as (r0 & r1 & r2 & r3 & r4 & r5 & r6 & _ & _ & _ & _ & _ & _ & _ &
        H5 & _ & _ & _ & _ & _ & _ & _ & Hnone & -> & _).
  apply readNegativeCache_inv in H5
    as [[Hok ->]|(m & rest & b & n & Hok & Hg & He & Ht & ->)]; simpl.
  - by rewrite Hnone.
  - eauto 10.
Qed.

(** X6. The request has a proxy part exactly when [GetOk] finds a [proxy]
    block, and the part holds [content_max_age], [metadata_max_age] and
    [remote_url] of the first block. *)
Theorem request_carries_proxy iss d repo :
  getRepositoryAptProxyFromResourceData iss d = Ok repo ->
  match Proxy repo with
  | None => (GetOk d "proxy").2 = false
  | Some p =>
      (GetOk d "proxy").2 = true /\
      exists m rest,
        Get d "proxy" = VList (VMap m :: rest) /\
        m !! "content_max_age" = Some (VInt (ContentMaxAge p)) /\
        m !! "metadata_max_age" = Some (VInt (MetadataMaxAge p)) /\
        m !! "remote_url" = Some (VString (RemoteURL p))
  end.
Proof.
  intros H.
  apply getRepositoryAptProxyFromResourceData_fields in H
    as (r0 & r1 & r2 & r3 & r4 & r5 & r6 & _ & _ & _ & _ & _ & _ & _ &
        _ & H6 & _ & _ & _ & _ & _ & _ & _ & _ & Hnone & -> & _).
  apply readProxy_inv in H6
    as [[Hok ->]|(m & rest & c & a & u & Hok & Hg & Hc & Ha & Hu & ->)];
    simpl.
  - by rewrite Hnone.
  - eauto 10.
Qed.

(** X7. The request has a storage part exactly when [GetOk] finds a
    [storage] block, and the part holds [blob_store_name] and
    [strict_content_type_validation] of the first block. *)
Theorem request_carries_storage iss d repo :
  getRepositoryAptProxyFromResourceData iss d = Ok repo ->
  match Storage repo with
  | None => (GetOk d "storage").2 = false
  | Some st =>
      (GetOk d "storage").2 = true /\
      exists m rest,
        Get d "storage" = VList (VMap m :: rest) /\
        m !! "blob_store_name" = Some (VString (BlobStoreName st)) /\
        m !! "strict_content_type_validation" =
          Some (VBool (StrictContentTypeValidation st))
  end.
Proof.
  intros H.
  apply getRepositoryAptProxyFromResourceData_fields in H
    as (r0 & r1 & r2 & r3 & r4 & r5 & r6 & _ & _ & _ & _ & _ & _ & _ &
        _ & _ & H7 & _ & _ & _ & _ & _ & _ & _ & _ & _ & Hnone & Hty).
  apply readStorage_inv in H7
    as [[Hok ->]|(m & rest & s & b & Hok & Hg & Hs & Hb & ->)]; simpl.
  - by rewrite Hnone.
  - eauto 10.
  - rewrite Hty. discriminate.
Qed.

(** ** Configurations on which the marshalling function returns *)

Lemma isComplete_TypeList_first elem e rest :
  isComplete (TypeList elem) (VList (e :: rest)) = true ->
  exists m, e = VMap m /\ blockIsComplete elem m = true.
Proof.
  simpl. intros [He _]%andb_prop.
  destruct e as [| | | | | | |m]; try discriminate He.
  exists m. split; [done|]. unfold blockIsComplete.
  revert He. generalize elem as fs.
  induction fs as [|[k t] fs IH]; simpl; [done|].
  intros [H1 H2]%andb_prop. rewrite H1. simpl. by apply IH.
Qed.

Lemma complete_lookup d k t v :
  complete d = true ->
  In (k, t) (rd_schema d) ->
  rd_fields d !! k = Some v ->
  isComplete t v = true.
Proof.
  unfold complete. rewrite forallb_forall.
  intros H Hin Hv. specialize (H _ Hin). simpl in H. by rewrite Hv in H.
Qed.

(** A block that [GetOk] finds in a complete resource data is a map that
    is complete for the schema of the block. *)
Lemma complete_GetOk d k elem :
  schemaLookup (rd_schema d) k = Some (TypeList elem) ->
  In (k, TypeList elem) (rd_schema d) ->
  complete d = true ->
  (GetOk d k).2 = true ->
  exists m rest,
    Get d k = VList (VMap m :: rest) /\ blockIsComplete elem m = true.
Proof.
  intros Hs Hin Hc. unfold GetOk, Get. rewrite Hs.
  destruct (rd_fields d !! k) as [v|] eqn:Hv; simpl; [|discriminate].
  pose proof (complete_lookup d k _ v Hc Hin Hv) as Hv'.
  destruct v as [| | | | |l| |]; try discriminate Hv'.
  destruct l as [|e rest]; [discriminate|]. intros _.
  apply isComplete_TypeList_first in Hv' as (m & -> & Hm). eauto.
Qed.

(** Splits the completeness of a block into one fact per key of its
    schema, and reads a key with its fact. *)
Ltac split_fields H :=
  unfold blockIsComplete in H; simpl in H;
  repeat (let Hf := fresh "Hf" in apply andb_prop in H as [Hf H]);
  clear H.
Ltac read_fields :=
  repeat match goal with
  | H : match ?m !! ?k with _ => _ end = true |- _ =>
      let E := fresh "E" in
      destruct (m !! k) as [[| | | | | | |]|] eqn:E;
      try discriminate H; clear H
  end.

Section Complete.
Variable d : ResourceData.
Hypothesis Hschema : rd_schema d = SchemaV1.Schema.
Hypothesis Hcomplete : complete d = true.

Lemma complete_block k elem :
  schemaLookup SchemaV1.Schema k = Some (TypeList elem) ->
  In (k, TypeList elem) SchemaV1.Schema ->
  (GetOk d k).2 = true ->
  exists m rest,
    Get d k = VList (VMap m :: rest) /\ blockIsComplete elem m = true.
Proof.
  intros Hs Hin. apply complete_GetOk; by rewrite ?Hschema.
Qed.

Lemma complete_name : exists s, Get d "name" = VString s.
Proof.
  unfold Get. rewrite Hschema. simpl.
  destruct (rd_fields d !! "name") as [v|] eqn:Hv; simpl; [|eauto].
  assert (isComplete TypeString v = true) as Ht.
  { apply (complete_lookup d "name"); [done| |done].
    rewrite Hschema. simpl. tauto. }
  destruct v; try discriminate Ht. eauto.
Qed.

Lemma complete_online : exists b, Get d "online" = VBool b.
Proof.
  unfold Get. rewrite Hschema. simpl.
  destruct (rd_fields d !! "online") as [v|] eqn:Hv; simpl; [|eauto].
  assert (isComplete TypeBool v = true) as Ht.
  { apply (complete_lookup d "online"); [done| |done].
    rewrite Hschema. simpl. tauto. }
  destruct v; try discriminate Ht. eauto.
Qed.

Lemma readApt_complete r : exists r', readApt d r = Ok r'.
Proof.
  unfold readApt. destruct (GetOk d "apt").2 eqn:Hok; [|eauto].
  destruct (complete_block "apt" SchemaV1.apt) as (m & rest & -> & Hm);
    [done|simpl; tauto|done|].
  split_fields Hm. read_fields.
  simpl. unfold mapIndex. rewrite E, E0. simpl. eauto.
Qed.

Lemma readCleanup_complete iss r :
  (forall l, allStrings l = true -> exists names, iss l = Ok names) ->
  exists r', readCleanup iss d r = Ok r'.
Proof.
  intros Hiss.
  unfold readCleanup. destruct (GetOk d "cleanup").2 eqn:Hok; [|eauto].
  destruct (complete_block "cleanup" SchemaV1.cleanup)
    as (m & rest & -> & Hm); [done|simpl; tauto|done|].
  split_fields Hm.
  destruct (m !! "policy_names") as [[| | | | | |l|]|] eqn:E;
    try discriminate Hf.
  destruct (Hiss l Hf) as [names Hnames].
  simpl. unfold mapIndex. rewrite E. simpl. rewrite Hnames. simpl. eauto.
Qed.

Lemma readGroup_complete r : readGroup d r = Ok r.
Proof. apply readGroup_unknown. by rewrite Hschema. Qed.

Lemma readNegativeCache_complete r : exists r', readNegativeCache d r = Ok r'.
Proof.
  unfold readNegativeCache.
  destruct (GetOk d "negative_cache").2 eqn:Hok; [|eauto].
  destruct (complete_block "negative_cache" SchemaV1.negative_cache)
    as (m & rest & -> & Hm); [done|simpl; tauto|done|].
  split_fields Hm. read_fields.
  simpl. unfold mapIndex. rewrite E, E0. simpl. eauto.
Qed.

Lemma readProxy_complete r : exists r', readProxy d r = Ok r'.
Proof.
  unfold readProxy. destruct (GetOk d "proxy").2 eqn:Hok; [|eauto].
  destruct (complete_block "proxy" SchemaV1.proxy) as (m & rest & -> & Hm);
    [done|simpl; tauto|done|].
  split_fields Hm. read_fields.
  simpl. unfold mapIndex. rewrite E, E0, E1. simpl. eauto.
Qed.

Lemma readStorage_complete r :
  Type_ r = "proxy" -> exists r', readStorage d r = Ok r'.
Proof.
  intros Hty.
  unfold readStorage. rewrite Hty.
  destruct (GetOk d "storage").2 eqn:Hok; [|eauto].
  destruct (complete_block "storage" SchemaV1.storage)
    as (m & rest & -> & Hm); [done|simpl; tauto|done|].
  split_fields Hm. read_fields.
  simpl. unfold mapIndex. rewrite E, E0. simpl. eauto.
Qed.

Lemma readAuthentication_complete hc l :
  hc !! "authentication" = Some (VList l) ->
  isComplete (TypeList SchemaV1.authentication) (VList l) = true ->
  exists a, readAuthentication hc = Ok a.
Proof.
  intros E Hl. unfold readAuthentication. rewrite E. simpl.
  destruct l as [|e [|e' l]]; [eauto| |eauto].
  apply isComplete_TypeList_first in Hl as (am & -> & Ham).
  split_fields Ham. read_fields.
  simpl. unfold mapIndex. rewrite E0, E1, E2, E3, E4. simpl. eauto.
Qed.

Lemma readHTTPClient_complete r :
  (forall hc rest,
     Get d "http_client" = VList (VMap hc :: rest) ->
     hc !! "connection" = Some (VList [])) ->
  exists r', readHTTPClient d r = Ok r'.
Proof.
  intros Hconn.
  unfold readHTTPClient. destruct (GetOk d "http_client").2 eqn:Hok; [|eauto].
  destruct (complete_block "http_client" SchemaV1.http_client)
    as (hc & rest & Hg & Hm); [done|simpl; tauto|done|].
  specialize (Hconn hc rest Hg). rewrite Hg.
  split_fields Hm.
  destruct (hc !! "blocked") as [[| |bl| | | | |]|] eqn:E;
    try discriminate Hf.
  destruct (hc !! "auto_block") as [[| |ab| | | | |]|] eqn:E0;
    try discriminate Hf0.
  destruct (hc !! "authentication") as [[| | | | |l| |]|] eqn:E2;
    try discriminate Hf2.
  destruct (readAuthentication_complete hc l E2 Hf2) as [a Ha].
  simpl. unfold mapIndex. rewrite E, E0. simpl. rewrite Ha. simpl.
  unfold readConnection. rewrite Hconn. simpl. eauto.
Qed.
End Complete.

(** X8. On every resource data of the apt proxy schema whose values are
    complete, and whose [http_client] block has no [connection] sub-block,
    the function returns a request (it does not panic), provided
    [interfaceSliceToStringSlice] returns on slices of strings. *)
Theorem getRepositoryAptProxyFromResourceData_returns iss d :
  rd_schema d = SchemaV1.Schema ->
  complete d = true ->
  (forall hc rest,
     Get d "http_client" = VList (VMap hc :: rest) ->
     hc !! "connection" = Some (VList [])) ->
  (forall l, allStrings l = true -> exists names, iss l = Ok names) ->
  exists repo, getRepositoryAptProxyFromResourceData iss d = Ok repo.
Proof.
  intros Hs Hc Hconn Hiss.
  unfold getRepositoryAptProxyFromResourceData.
  destruct (complete_name d Hs Hc) as [name ->].
  destruct (complete_online d Hs Hc) as [online ->]. simpl.
  set (r0 := mkRepository "apt" name online "proxy"
               None None None None None None None).
  destruct (readApt_complete d Hs Hc r0) as [r1 H1]. rewrite H1. simpl.
  destruct (readCleanup_complete d Hs Hc iss r1 Hiss) as [r2 H2].
  rewrite H2. simpl.
  rewrite (readGroup_complete d Hs). simpl.
  destruct (readHTTPClient_complete d Hs Hc r2 Hconn) as [r4 H4].
  rewrite H4. simpl.
  destruct (readNegativeCache_complete d Hs Hc r4) as [r5 H5].
  rewrite H5. simpl.
  destruct (readProxy_complete d Hs Hc r5) as [r6 H6]. rewrite H6. simpl.
  apply (readStorage_complete d Hs Hc).
  pose proof (readApt_Ok _ _ _ H1) as E1. project_shape E1.
  pose proof (readCleanup_Ok _ _ _ _ H2) as E2. project_shape E2.
  pose proof (readHTTPClient_Ok _ _ _ H4) as E4. project_shape E4.
  pose proof (readNegativeCache_Ok _ _ _ H5) as E5. project_shape E5.
  pose proof (readProxy_Ok _ _ _ H6) as E6. project_shape E6.
  congruence.
Qed.

(** ** What the marshalling function never returns, and where it panics *)

(** A value that [Get] returns and that is not the zero value of its type
    exists in the resource data. *)
Lemma Get_exists d k t v :
  schemaLookup (rd_schema d) k = Some t ->
  Get d k = v ->
  v <> zeroValue t ->
  rd_fields d !! k = Some v.
Proof.
  unfold Get. intros ->. destruct (rd_fields d !! k); simpl; congruence.
Qed.

(** X9. For a resource data that conforms to the apt proxy schema, no
    request that the function returns has a connection in its HTTP client
    part: the only runs that return are those that pass the [connection]
    sub-block over. *)
Theorem request_has_no_connection iss d repo h :
  rd_schema d = SchemaV1.Schema ->
  conforms d = true ->
  getRepositoryAptProxyFromResourceData iss d = Ok repo ->
  HTTPClient repo = Some h ->
  Connection h = None.
Proof.
  intros Hs Hc H Hh.
  apply getRepositoryAptProxyFromResourceData_fields in H
    as (r0 & r1 & r2 & r3 & r4 & r5 & r6 & _ & _ & _ & _ & _ & _ & H4 &
        _ & _ & _ & _ & _ & _ & Hnone & Heq & _).
  rewrite Heq in Hh.
  apply readHTTPClient_inv in H4
    as [[Hok ->]|(hc & rest & ab & bl & auth & conn & Hok & Hg & Hab & Hbl &
                  Hauth & Hconn & ->)]; [congruence|].
  simpl in Hh. injection Hh as <-. simpl.
  destruct conn as [c|]; [exfalso|done].
  apply readConnection_inv in Hconn as (cm & Hcm & Hr & _).
  apply (Get_exists d "http_client" (TypeList SchemaV1.http_client)) in Hg;
    [|by rewrite Hs|discriminate].
  assert (hasType (TypeList SchemaV1.http_client)
            (VList (VMap hc :: rest)) = true) as Hhc.
  { apply (conforms_lookup d "http_client"); [done| |done].
    rewrite Hs. simpl. tauto. }
  apply hasType_TypeList_elem with (m := hc) in Hhc; [|by left].
  assert (hasType (TypeList SchemaV1.connection) (VList [VMap cm]) = true)
    as Hcn.
  { apply (blockHasType_lookup SchemaV1.http_client hc "connection");
      [done| |done].
    simpl. tauto. }
  apply hasType_TypeList_elem with (m := cm) in Hcn; [|by left].
  assert (hasType TypeInt (VIntPtr (Retries c)) = true) as Habs.
  { apply (blockHasType_lookup SchemaV1.connection cm "retries");
      [done| |done].
    simpl. tauto. }
  discriminate Habs.
Qed.

(** X10. The [apt], [cleanup], [http_client], [negative_cache], [proxy]
    and [storage] blocks are indexed and asserted to be maps without a
    test for nil: when [GetOk] finds one of them and the first element of
    its list is nil, the function panics. *)
Theorem nil_block_panics iss d key rest :
  In key unguardedBlocks ->
  (GetOk d key).2 = true ->
  Get d key = VList (VNil :: rest) ->
  getRepositoryAptProxyFromResourceData iss d = Panic.
Proof.
  intros Hin Hok Hg. unfold getRepositoryAptProxyFromResourceData.
  simpl in Hin.
  destruct Hin as [<-|[<-|[<-|[<-|[<-|[<-|[]]]]]]].
  - do 2 (apply bind_Panic_r; intros ?). apply bind_Panic.
    unfold readApt. by rewrite Hok, Hg.
  - do 3 (apply bind_Panic_r; intros ?). apply bind_Panic.
    unfold readCleanup. by rewrite Hok, Hg.
  - do 5 (apply bind_Panic_r; intros ?). apply bind_Panic.
    unfold readHTTPClient. by rewrite Hok, Hg.
  - do 6 (apply bind_Panic_r; intros ?). apply bind_Panic.
    unfold readNegativeCache. by rewrite Hok, Hg.
  - do 7 (apply bind_Panic_r; intros ?). apply bind_Panic.
    unfold readProxy. by rewrite Hok, Hg.
  - do 8 (apply bind_Panic_r; intros ?).
    unfold readStorage. by rewrite Hok, Hg.
Qed.

(** X11. The request depends on the resource data through the values of
    nine keys only: two resource data of one schema that hold the same
    values for [name], [online], [apt], [cleanup], [group], [http_client],
    [negative_cache], [proxy] and [storage] give the same result, whatever
    their ids and their values for other keys. *)
Theorem request_depends_on_nine_keys iss d1 d2 :
  rd_schema d1 = rd_schema d2 ->
  (forall k, In k readKeys -> rd_fields d1 !! k = rd_fields d2 !! k) ->
  getRepositoryAptProxyFromResourceData iss d1 =
  getRepositoryAptProxyFromResourceData iss d2.
Proof.
  intros Hs H. apply getRepositoryAptProxyFromResourceData_ext.
  intros k Hk. unfold Get, GetOk. by rewrite Hs, (H k Hk).
Qed.

(** ** Further properties of the handlers *)

Section MoreHandlerProperties.
Context {C : Type} `{!Client C}.
Variable interfaceSliceToStringSlice : list value -> Result (list string).
Variable setRepositoryToResourceData :
  Repository -> ResourceData -> Result (ResourceData * option error).
Variable resourceRepositoryRead : Handler C (option error).

Abbreviation marshal :=
  (getRepositoryAptProxyFromResourceData interfaceSliceToStringSlice).
Abbreviation Create :=
  (resourceRepositoryAptProxyCreate interfaceSliceToStringSlice
     setRepositoryToResourceData).
Abbreviation Read :=
  (resourceRepositoryAptProxyRead setRepositoryToResourceData).
Abbreviation Update :=
  (resourceRepositoryAptProxyUpdate interfaceSliceToStringSlice
     setRepositoryToResourceData resourceRepositoryRead).
Abbreviation Delete := (@resourceRepositoryAptProxyDelete C _).

(** X12. When the client finds the repository, Read writes exactly the
    repository the client returned into the resource data, once, and
    returns what [setRepositoryToResourceData] returns; it issues the one
    read and does not reset the id. *)
Theorem Read_writes_found_repository (s : State C) c found d1 err :
  RepositoryRead (st_client s) (Id (st_d s)) = (c, (Some found, None)) ->
  setRepositoryToResourceData found (st_d s) = Ok (d1, err) ->
  Read s =
    Returned err
      (mkState d1 c
         (st_trace s ++
          [EvRepositoryRead (Id (st_d s));
           EvSetRepositoryToResourceData found])).
Proof.
  intros Hr Hset. rewrite (Read_eq _ s c (Some found) None Hr). simpl.
  rewrite callSet_eq. simpl. rewrite Hset. by rewrite <- app_assoc.
Qed.

(** X13. When the client's read fails, Read leaves the resource data as it
    was, the id included, and does not call [setRepositoryToResourceData],
    also when the client returned a repository along with the error. *)
Theorem Read_error_leaves_resource_data (s : State C) c found (e : error) :
  RepositoryRead (st_client s) (Id (st_d s)) = (c, (found, Some e)) ->
  st_d (final (Read s)) = st_d s /\
  st_trace (final (Read s)) =
    st_trace s ++ [EvRepositoryRead (Id (st_d s))].
Proof.
  intros Hr. by rewrite (Read_eq _ s c found (Some e) Hr).
Qed.

(** X14. Delete issues one [RepositoryDelete] for the id of the resource,
    returns what the client returns, and never changes the resource data:
    it does not reset the id after a successful deletion. *)
Theorem Delete_leaves_resource_data (s : State C) :
  returned (Delete s) =
    Some (RepositoryDelete (st_client s) (Id (st_d s))).2 /\
  st_d (final (Delete s)) = st_d s /\
  st_trace (final (Delete s)) =
    st_trace s ++ [EvRepositoryDelete (Id (st_d s))].
Proof.
  destruct (RepositoryDelete (st_client s) (Id (st_d s))) as [c err] eqn:H.
  by rewrite (Delete_eq s c err H).
Qed.

(** X15. A creation that succeeds: Create sends the marshalled request,
    writes it into the resource data, reads the repository back under the
    id that this writing left, writes what the client found, and returns
    what that second writing returns. *)
Theorem Create_reads_back (s : State C) repo c1 d1 c2 found d2 err :
  marshal (st_d s) = Ok repo ->
  RepositoryCreate (st_client s) repo = (c1, None) ->
  setRepositoryToResourceData repo (st_d s) = Ok (d1, None) ->
  RepositoryRead c1 (Id d1) = (c2, (Some found, None)) ->
  setRepositoryToResourceData found d1 = Ok (d2, err) ->
  Create s =
    Returned err
      (mkState d2 c2
         (st_trace s ++
          [EvRepositoryCreate repo;
           EvSetRepositoryToResourceData repo;
           EvRepositoryRead (Id d1);
           EvSetRepositoryToResourceData found])).
Proof.
  intros Hm Hc Hset Hr Hset2.
  rewrite (Create_eq _ _ s repo c1 None Hm Hc). simpl.
  rewrite callSet_eq. simpl. rewrite Hset.
  rewrite (Read_eq _ (mkState d1 c1 _) c2 (Some found) None Hr). simpl.
  rewrite callSet_eq. simpl. rewrite Hset2. by rewrite <- !app_assoc.
Qed.

(** X16. When the read that follows a successful creation finds no
    repository and reports no error, Create returns nil all the same, and
    leaves the resource with the empty id. *)
Theorem Create_read_back_missing (s : State C) repo c1 d1 c2 :
  marshal (st_d s) = Ok repo ->
  RepositoryCreate (st_client s) repo = (c1, None) ->
  setRepositoryToResourceData repo (st_d s) = Ok (d1, None) ->
  RepositoryRead c1 (Id d1) = (c2, (None, None)) ->
  Create s =
    Returned None
      (mkState (SetId EmptyString d1) c2
         (st_trace s ++
          [EvRepositoryCreate repo;
           EvSetRepositoryToResourceData repo;
           EvRepositoryRead (Id d1)])).
Proof.
  intros Hm Hc Hset Hr.
  rewrite (Create_eq _ _ s repo c1 None Hm Hc). simpl.
  rewrite callSet_eq. simpl. rewrite Hset.
  rewrite (Read_eq _ (mkState d1 c1 _) c2 None None Hr). simpl.
  by rewrite <- !app_assoc.
Qed.

(** X17. An error of [setRepositoryToResourceData] after a successful
    [RepositoryCreate] or [RepositoryUpdate] is what Create, or Update,
    returns; no request follows it, and the resource data is as
    [setRepositoryToResourceData] left it. *)
Theorem set_error_is_returned (s : State C) repo c1 d1 (e : error) :
  marshal (st_d s) = Ok repo ->
  setRepositoryToResourceData repo (st_d s) = Ok (d1, Some e) ->
  (RepositoryCreate (st_client s) repo = (c1, None) ->
   Create s =
     Returned (Some e)
       (mkState d1 c1
          (st_trace s ++
           [EvRepositoryCreate repo; EvSetRepositoryToResourceData repo]))) /\
  (RepositoryUpdate (st_client s) (Id (st_d s)) repo = (c1, None) ->
   Update s =
     Returned (Some e)
       (mkState d1 c1
          (st_trace s ++
           [EvRepositoryUpdate (Id (st_d s)) repo;
            EvSetRepositoryToResourceData repo]))).
Proof.
  intros Hm Hset. split; intros Hc.
  - rewrite (Create_eq _ _ s repo c1 None Hm Hc). simpl.
    rewrite callSet_eq. simpl. rewrite Hset. by rewrite <- app_assoc.
  - rewrite (Update_eq _ _ _ s repo c1 None Hm Hc). simpl.
    rewrite callSet_eq. simpl. rewrite Hset. by rewrite <- app_assoc.
Qed.

(** X18. An update that succeeds: Update addresses the repository by the
    id of the resource and sends the request marshalled from the
    configuration, whose name is the configured [name]; it writes the
    request into the resource data and then does and returns what the
    generic read handler [resourceRepositoryRead] does on the result. *)
Theorem Update_hands_over_to_generic_read (s : State C) repo c1 d1 :
  marshal (st_d s) = Ok repo ->
  RepositoryUpdate (st_client s) (Id (st_d s)) repo = (c1, None) ->
  setRepositoryToResourceData repo (st_d s) = Ok (d1, None) ->
  Get (st_d s) "name" = VString (Name repo) /\
  Update s =
    resourceRepositoryRead
      (mkState d1 c1
         (st_trace s ++
          [EvRepositoryUpdate (Id (st_d s)) repo;
           EvSetRepositoryToResourceData repo])).
Proof.
  intros Hm Hc Hset. split.
  - apply getRepositoryAptProxyFromResourceData_fields in Hm
      as (r0 & r1 & r2 & r3 & r4 & r5 & r6 & Hn & _). done.
  - rewrite (Update_eq _ _ _ s repo c1 None Hm Hc). simpl.
    rewrite callSet_eq. simpl. rewrite Hset. by rewrite <- app_assoc.
Qed.

(** X19. With a [connection] sub-block in a resource data that conforms
    to the schema, Create and Update panic in the marshalling: no request
    is issued, [setRepositoryToResourceData] is not called and the
    resource data is untouched. *)
Theorem connection_block_panics_before_any_request
  (s : State C) (hc conn : gmap string value) :
  rd_schema (st_d s) = SchemaV1.Schema ->
  conforms (st_d s) = true ->
  rd_fields (st_d s) !! "http_client" = Some (VList [VMap hc]) ->
  hc !! "connection" = Some (VList [VMap conn]) ->
  Create s = Panicked s /\ Update s = Panicked s.
Proof.
  intros Hs Hc Hh Hconn.
  assert (marshal (st_d s) = Panic) as Hm.
  { apply getRepositoryAptProxyFromResourceData_Panic. intros repo.
    apply (readHTTPClient_Panic (st_d s) hc); [by rewrite Hs|done|].
    by apply (readConnection_conforms_Panic (st_d s) hc conn). }
  split; [by apply Create_panic | by apply Update_panic].
Qed.
End MoreHandlerProperties.

(** ** Properties of the second variant *)

Section Variant2Properties.
Context {C : Type} `{!Client C}.
Variable getRepositoryFromResourceData : ResourceData -> Result Repository.
Variable interfaceSliceToStringSlice : list value -> Result (list string).
Variable setRepositoryToResourceData :
  Repository -> ResourceData -> Result (ResourceData * option error).
Variable resourceRepositoryRead : Handler C (option error).

Abbreviation Create2 :=
  (Variant2.resourceRepositoryAptProxyCreate getRepositoryFromResourceData
     setRepositoryToResourceData).
Abbreviation Update2 :=
  (Variant2.resourceRepositoryAptProxyUpdate getRepositoryFromResourceData
     setRepositoryToResourceData resourceRepositoryRead).

(** X20. In the second variant, when [RepositoryCreate] in Create, or
    [RepositoryUpdate] in Update, returns an error, the handler returns
    that error, the request is the only event, and the resource data is
    the one the handler was given, whatever
    [getRepositoryFromResourceData] and [setRepositoryToResourceData]
    are. *)
Theorem Variant2_failed_write_leaves_resource_data
  (s : State C) repo c (e : error) :
  getRepositoryFromResourceData (st_d s) = Ok repo ->
  (RepositoryCreate (st_client s) repo = (c, Some e) ->
   Create2 s =
     Returned (Some e)
       (mkState (st_d s) c (st_trace s ++ [EvRepositoryCreate repo]))) /\
  (RepositoryUpdate (st_client s) (Id (st_d s)) repo = (c, Some e) ->
   Update2 s =
     Returned (Some e)
       (mkState (st_d s) c
          (st_trace s ++ [EvRepositoryUpdate (Id (st_d s)) repo]))).
Proof.
  intros Hm. split; intros Hc.
  - unfold Variant2.resourceRepositoryAptProxyCreate, hbind, getD,
      liftResult, callRepositoryCreate.
    simpl. rewrite Hm. simpl. by rewrite Hc.
  - unfold Variant2.resourceRepositoryAptProxyUpdate, hbind, getD,
      liftResult, callRepositoryUpdate.
    simpl. rewrite Hm. simpl. by rewrite Hc.
Qed.

(** X21. The two variants of Create and of Update differ in the
    marshalling function only: on a state on whose resource data
    [getRepositoryFromResourceData] returns what
    [getRepositoryAptProxyFromResourceData] returns (a request or a
    panic), the handlers of the second variant do exactly what those of
    the first do. *)
Theorem variants_agree_where_marshalling_agrees (s : State C) :
  getRepositoryFromResourceData (st_d s) =
    getRepositoryAptProxyFromResourceData interfaceSliceToStringSlice
      (st_d s) ->
  Create2 s =
    resourceRepositoryAptProxyCreate interfaceSliceToStringSlice
      setRepositoryToResourceData s /\
  Update2 s =
    resourceRepositoryAptProxyUpdate interfaceSliceToStringSlice
      setRepositoryToResourceData resourceRepositoryRead s.
Proof.
  intros Hm.
  unfold Variant2.resourceRepositoryAptProxyCreate,
    Variant2.resourceRepositoryAptProxyUpdate,
    resourceRepositoryAptProxyCreate, resourceRepositoryAptProxyUpdate,
    hbind, getD.
  simpl. rewrite Hm. done.
Qed.
End Variant2Properties.

(** ** The further properties on the example usage and the mock *)

Module MoreWitness.
Import Example Cases.

Abbreviation marshal := (getRepositoryAptProxyFromResourceData stringsOf).
Abbreviation genericRead :=
  (resourceRepositoryAptProxyRead (C := Server) setIdOnly).

Lemma marshal_created : marshal created = Ok plainRepository.
Proof. vm_compute. reflexivity. Defined.

Lemma stringsOf_returns l :
  allStrings l = true -> exists names, stringsOf l = Ok names.
Proof.
  induction l as [|v l IH]; simpl; [eauto|].
  intros [Hv Hl]%andb_prop. destruct v; try discriminate Hv.
  destruct (IH Hl) as [names ->]. simpl. eauto.
Defined.

Lemma request_carries_name_and_online_witness :
  Get plain "name" = VString "apt-proxy" /\
  Get plain "online" = VBool true.
Proof.
  exact (request_carries_name_and_online stringsOf plain plainRepository
           Witness.marshal_plain).
Defined.

Lemma request_carries_apt_witness :
  (GetOk plain "apt").2 = true /\
  exists m rest,
    Get plain "apt" = VList (VMap m :: rest) /\
    m !! "distribution" = Some (VString "bionic") /\
    m !! "flat" = Some (VBool false).
Proof.
  exact (request_carries_apt stringsOf plain plainRepository
           Witness.marshal_plain).
Defined.

Lemma request_carries_cleanup_witness :
  (GetOk plain "cleanup").2 = true /\
  exists m rest l,
    Get plain "cleanup" = VList (VMap m :: rest) /\
    m !! "policy_names" = Some (VSet l) /\
    stringsOf l = Ok ["string"].
Proof.
  exact (request_carries_cleanup stringsOf plain plainRepository
           Witness.marshal_plain).
Defined.

Lemma request_carries_http_client_witness :
  (GetOk plain "http_client").2 = true /\
  exists hc rest,
    Get plain "http_client" = VList (VMap hc :: rest) /\
    hc !! "auto_block" = Some (VBool true) /\
    hc !! "blocked" = Some (VBool false) /\
    exists am,
      hc !! "authentication" = Some (VList [VMap am]) /\
      am !! "ntlm_domain" = Some (VString "string") /\
      am !! "ntlm_host" = Some (VString "string") /\
      am !! "type" = Some (VString "username") /\
      am !! "username" = Some (VString "string") /\
      am !! "password" = Some (VString "string").
Proof.
  exact (request_carries_http_client stringsOf plain plainRepository
           Witness.marshal_plain).
Defined.

Lemma request_carries_negative_cache_witness :
  (GetOk plain "negative_cache").2 = true /\
  exists m rest,
    Get plain "negative_cache" = VList (VMap m :: rest) /\
    m !! "enabled" = Some (VBool true) /\
    m !! "ttl" = Some (VInt 1440).
Proof.
  exact (request_carries_negative_cache stringsOf plain plainRepository
           Witness.marshal_plain).
Defined.

Lemma request_carries_proxy_witness :
  (GetOk plain "proxy").2 = true /\
  exists m rest,
    Get plain "proxy" = VList (VMap m :: rest) /\
    m !! "content_max_age" = Some (VInt 1440) /\
    m !! "metadata_max_age" = Some (VInt 1440) /\
    m !! "remote_url" = Some (VString "https://remote.repository.com").
Proof.
  exact (request_carries_proxy stringsOf plain plainRepository
           Witness.marshal_plain).
Defined.

Lemma request_carries_storage_witness :
  (GetOk plain "storage").2 = true /\
  exists m rest,
    Get plain "storage" = VList (VMap m :: rest) /\
    m !! "blob_store_name" = Some (VString "default") /\
    m !! "strict_content_type_validation" = Some (VBool true).
Proof.
  exact (request_carries_storage stringsOf plain plainRepository
           Witness.marshal_plain).
Defined.

Lemma getRepositoryAptProxyFromResourceData_returns_witness :
  exists repo, marshal plain = Ok repo.
Proof.
  apply getRepositoryAptProxyFromResourceData_returns.
  - reflexivity.
  - vm_compute. reflexivity.
  - intros hc rest H. vm_compute in H. injection H as <- <-.
    vm_compute. reflexivity.
  - exact stringsOf_returns.
Defined.

Lemma request_has_no_connection_witness :
  Connection
    (mkRepositoryHTTPClient true false
       (Some (mkRepositoryHTTPClientAuthentication
                "string" "string" "username" "string" "string"))
       None) = None.
Proof.
  apply (request_has_no_connection stringsOf plain plainRepository).
  - reflexivity.
  - vm_compute. reflexivity.
  - exact Witness.marshal_plain.
  - reflexivity.
Defined.

Lemma nil_block_panics_witness : marshal nilCleanup = Panic.
Proof.
  apply (nil_block_panics stringsOf nilCleanup "cleanup" []).
  - simpl. tauto.
  - vm_compute. reflexivity.
  - vm_compute. reflexivity.
Defined.

Lemma request_depends_on_nine_keys_witness :
  marshal created = marshal unrouted.
Proof.
  apply request_depends_on_nine_keys.
  - reflexivity.
  - intros k Hk. simpl in Hk.
    repeat (destruct Hk as [<-|Hk]; [vm_compute; reflexivity|]).
    destruct Hk.
Defined.
Lemma Read_writes_found_repository_witness :
  resourceRepositoryAptProxyRead setIdOnly
    (start created (serverWithRepository 1)) =
    Returned None
      (mkState created (serverWithRepository 0)
         ([] ++
          [EvRepositoryRead "apt-proxy";
           EvSetRepositoryToResourceData plainRepository])).
Proof.
  apply (Read_writes_found_repository setIdOnly
           (start created (serverWithRepository 1))
           (serverWithRepository 0) plainRepository created None);
    reflexivity.
Defined.

Lemma Read_error_leaves_resource_data_witness :
  st_d (final (resourceRepositoryAptProxyRead setIdOnly
                 (start created (emptyServer 0)))) = created /\
  st_trace (final (resourceRepositoryAptProxyRead setIdOnly
                     (start created (emptyServer 0)))) =
    [] ++ [EvRepositoryRead "apt-proxy"].
Proof.
  apply (Read_error_leaves_resource_data setIdOnly
           (start created (emptyServer 0)) (emptyServer 0) None refused).
  reflexivity.
Defined.

Lemma Create_reads_back_witness :
  resourceRepositoryAptProxyCreate stringsOf setIdOnly
    (start plain (emptyServer 2)) =
    Returned None
      (mkState created (serverWithRepository 0)
         ([] ++
          [EvRepositoryCreate plainRepository;
           EvSetRepositoryToResourceData plainRepository;
           EvRepositoryRead "apt-proxy";
           EvSetRepositoryToResourceData plainRepository])).
Proof.
  apply (Create_reads_back stringsOf setIdOnly
           (start plain (emptyServer 2)) plainRepository
           (serverWithRepository 1) created (serverWithRepository 0)
           plainRepository created None).
  - exact Witness.marshal_plain.
  - vm_compute. reflexivity.
  - reflexivity.
  - reflexivity.
  - reflexivity.
Defined.

Lemma Create_read_back_missing_witness :
  resourceRepositoryAptProxyCreate stringsOf setNothing
    (start plain (emptyServer 2)) =
    Returned None
      (mkState (SetId EmptyString plain) (serverWithRepository 0)
         ([] ++
          [EvRepositoryCreate plainRepository;
           EvSetRepositoryToResourceData plainRepository;
           EvRepositoryRead EmptyString])).
Proof.
  apply (Create_read_back_missing stringsOf setNothing
           (start plain (emptyServer 2)) plainRepository
           (serverWithRepository 1) plain (serverWithRepository 0)).
  - exact Witness.marshal_plain.
  - vm_compute. reflexivity.
  - reflexivity.
  - vm_compute. reflexivity.
Defined.

Lemma set_error_is_returned_witness :
  resourceRepositoryAptProxyCreate stringsOf setFails
    (start plain (emptyServer 1)) =
    Returned (Some setError)
      (mkState plain (serverWithRepository 0)
         ([] ++
          [EvRepositoryCreate plainRepository;
           EvSetRepositoryToResourceData plainRepository])) /\
  resourceRepositoryAptProxyUpdate stringsOf setFails genericRead
    (start created (serverWithRepository 1)) =
    Returned (Some setError)
      (mkState created (serverWithRepository 0)
         ([] ++
          [EvRepositoryUpdate "apt-proxy" plainRepository;
           EvSetRepositoryToResourceData plainRepository])).
Proof.
  split.
  - apply (set_error_is_returned stringsOf setFails genericRead
             (start plain (emptyServer 1)) plainRepository
             (serverWithRepository 0) plain setError);
      [exact Witness.marshal_plain | reflexivity | vm_compute; reflexivity].
  - apply (set_error_is_returned stringsOf setFails genericRead
             (start created (serverWithRepository 1)) plainRepository
             (serverWithRepository 0) created setError);
      [exact marshal_created | reflexivity | vm_compute; reflexivity].
Defined.

Lemma Update_hands_over_to_generic_read_witness :
  Get created "name" = VString "apt-proxy" /\
  resourceRepositoryAptProxyUpdate stringsOf setIdOnly genericRead
    (start created (serverWithRepository 2)) =
    genericRead
      (mkState created (serverWithRepository 1)
         ([] ++
          [EvRepositoryUpdate "apt-proxy" plainRepository;
           EvSetRepositoryToResourceData plainRepository])).
Proof.
  apply (Update_hands_over_to_generic_read stringsOf setIdOnly genericRead
           (start created (serverWithRepository 2)) plainRepository
           (serverWithRepository 1) created).
  - exact marshal_created.
  - vm_compute. reflexivity.
  - reflexivity.
Defined.

Lemma connection_block_panics_before_any_request_witness :
  resourceRepositoryAptProxyCreate stringsOf setIdOnly
    (start full (emptyServer 1)) = Panicked (start full (emptyServer 1)) /\
  resourceRepositoryAptProxyUpdate stringsOf setIdOnly genericRead
    (start full (emptyServer 1)) = Panicked (start full (emptyServer 1)).
Proof.
  apply (connection_block_panics_before_any_request stringsOf setIdOnly
           genericRead (start full (emptyServer 1))
           httpClientConfig connectionConfig).
  - reflexivity.
  - vm_compute. reflexivity.
  - vm_compute. reflexivity.
  - vm_compute. reflexivity.
Defined.

Lemma Variant2_failed_write_leaves_resource_data_witness :
  Variant2.resourceRepositoryAptProxyCreate marshal setIdOnly
    (start plain (emptyServer 0)) =
    Returned (Some refused)
      (mkState plain (emptyServer 0)
         ([] ++ [EvRepositoryCreate plainRepository])) /\
  Variant2.resourceRepositoryAptProxyUpdate marshal setIdOnly genericRead
    (start plain (emptyServer 0)) =
    Returned (Some refused)
      (mkState plain (emptyServer 0)
         ([] ++ [EvRepositoryUpdate EmptyString plainRepository])).
Proof.
  pose proof (Variant2_failed_write_leaves_resource_data marshal setIdOnly
                genericRead (start plain (emptyServer 0)) plainRepository
                (emptyServer 0) refused Witness.marshal_plain)
    as [HCreate HUpdate].
  split; [apply HCreate | apply HUpdate]; reflexivity.
Defined.

Lemma variants_agree_where_marshalling_agrees_witness :
  Variant2.resourceRepositoryAptProxyCreate marshal setIdOnly
    (start plain (emptyServer 2)) =
    resourceRepositoryAptProxyCreate stringsOf setIdOnly
      (start plain (emptyServer 2)) /\
  Variant2.resourceRepositoryAptProxyUpdate marshal setIdOnly genericRead
    (start plain (emptyServer 2)) =
    resourceRepositoryAptProxyUpdate stringsOf setIdOnly genericRead
      (start plain (emptyServer 2)).
Proof.
  apply (variants_agree_where_marshalling_agrees marshal stringsOf setIdOnly
           genericRead (start plain (emptyServer 2))).
  reflexivity.
Defined.
End MoreWitness.
